(** * sl-file-dropzone: intake, transfer callbacks and removal

    A shallow embedding of the [SlFileDropzone] component
    (file-dropzone.ts): the methods that take files in, start an upload,
    react to the upload's callbacks and remove a list entry.  Rendering
    ([render], [dragDroplabel], [requestUpdate]) changes no state the
    methods read, and is left out apart from [requestUpdate], kept as an
    action without effect so that the methods read like the source.

    JavaScript objects are shared by reference: a [FileInfo] object is
    created in [addFile], put in [this.files], captured by the four
    upload callbacks and handed to listeners in event details.  The
    model therefore keeps the objects in a store ([heap]) and lets
    [files], the callbacks and the event details hold references. *)

From Stdlib Require Import ZArith NArith QArith Ascii String List Bool Lia.
From stdpp Require Import base option list.
Import ListNotations.

Local Open Scope Z_scope.
Local Open Scope string_scope.
Local Open Scope list_scope.

(** ** JavaScript values *)

(** A [number] holding the outcome of [loaded / total * 100] for the
    unsigned [loaded] and [total] of a [ProgressEvent]: a finite value,
    kept as an exact rational, or what a division by zero gives. *)
Inductive number :=
| Finite (q : Q)
| Infinity
| NaN.

(** Truthiness of the optional fields the methods test. *)
Definition truthy_bool (b : option bool) : bool :=
  match b with Some true => true | _ => false end.

Definition truthy_string (s : option string) : bool :=
  match s with Some s => negb (s =? "")%string | None => false end.

Definition truthy_number (n : Z) : bool := negb (n =? 0)%Z.

Module File.
Record t := { name : string; size : Z; type : string }.
End File.

Definition FileList := list File.t.

Record ProgressEvent := {
  lengthComputable : bool;
  loaded : N;
  total : N
}.

(** Modelled from the spec: [HttpMethod] of ./library, which is not
    among the sources.  The component names [POST] only, the default of
    [method]; any other configured verb is kept by its name. *)
Inductive HttpMethod := POST | OtherMethod (verb : string).

Inductive Body :=
| BinaryBody (file : File.t)
| FormData (entries : list (string * File.t)).

(** The request side of an [XMLHttpRequest], as [uploadFile] builds it,
    and whether [abort()] was called on it. *)
Module Xhr.
Record t := {
  method : option HttpMethod;
  url : option string;
  requestHeaders : list (string * string);
  withCredentials : bool;
  sent : option Body;
  aborted : bool
}.

Definition new : t :=
  {| method := None; url := None; requestHeaders := []; withCredentials := false;
     sent := None; aborted := false |}.

Definition open (m : HttpMethod) (u : string) (x : t) : t :=
  {| method := Some m; url := Some u; requestHeaders := requestHeaders x;
     withCredentials := withCredentials x; sent := sent x; aborted := aborted x |}.

Definition setRequestHeader (k v : string) (x : t) : t :=
  {| method := method x; url := url x; requestHeaders := requestHeaders x ++ [(k, v)];
     withCredentials := withCredentials x; sent := sent x; aborted := aborted x |}.

Definition set_withCredentials (b : bool) (x : t) : t :=
  {| method := method x; url := url x; requestHeaders := requestHeaders x;
     withCredentials := b; sent := sent x; aborted := aborted x |}.

Definition send (b : Body) (x : t) : t :=
  {| method := method x; url := url x; requestHeaders := requestHeaders x;
     withCredentials := withCredentials x; sent := Some b; aborted := aborted x |}.

Definition abort (x : t) : t :=
  {| method := method x; url := url x; requestHeaders := requestHeaders x;
     withCredentials := withCredentials x; sent := sent x; aborted := true |}.
End Xhr.

(** What [onTransferComplete] reads from the request when the upload's
    load event arrives. *)
Record XhrResult := { status : Z; response : string }.

(** [FileInfo], declared in ./library, with the fields the component
    reads and writes: every field but [file] is optional and starts
    undefined. *)
Module FileInfo.
Record t := {
  file : File.t;
  accepted : option bool;
  warning : option string;
  loading : option bool;
  progress : option number;
  xhr : option Xhr.t
}.

Definition new (f : File.t) : t :=
  {| file := f; accepted := None; warning := None; loading := None;
     progress := None; xhr := None |}.

Definition set_accepted (v : bool) (i : t) : t :=
  {| file := file i; accepted := Some v; warning := warning i; loading := loading i;
     progress := progress i; xhr := xhr i |}.

Definition set_warning (v : string) (i : t) : t :=
  {| file := file i; accepted := accepted i; warning := Some v; loading := loading i;
     progress := progress i; xhr := xhr i |}.

Definition set_loading (v : bool) (i : t) : t :=
  {| file := file i; accepted := accepted i; warning := warning i; loading := Some v;
     progress := progress i; xhr := xhr i |}.

Definition set_progress (v : number) (i : t) : t :=
  {| file := file i; accepted := accepted i; warning := warning i; loading := loading i;
     progress := Some v; xhr := xhr i |}.

Definition set_xhr (v : Xhr.t) (i : t) : t :=
  {| file := file i; accepted := accepted i; warning := warning i; loading := loading i;
     progress := progress i; xhr := Some v |}.

(** [fileInfo.xhr.m(...)] for a method [m] that changes the request. *)
Definition on_xhr (m : Xhr.t -> Xhr.t) (i : t) : t :=
  {| file := file i; accepted := accepted i; warning := warning i; loading := loading i;
     progress := progress i; xhr := m <$> xhr i |}.
End FileInfo.

(** A reference to a [FileInfo] object in the store. *)
Definition ref := nat.

(** The events the component dispatches, with their details.  [sl-abort]
    carries the upload's event when the transfer reports the abort and
    [{ fileInfo }] when a removal asks for it. *)
Inductive AbortDetail :=
| AbortEvent (event : ProgressEvent)
| AbortFile (fileInfo : ref).

Inductive CustomEvent :=
| sl_select
| sl_change (fileList : FileList)
| sl_load (response : string)
| sl_error (event : ProgressEvent)
| sl_abort (detail : AbortDetail)
| sl_remove (fileInfo : ref).

(** ** The component *)

(** The properties the methods read or write, then the object store and
    the events dispatched so far, oldest first. *)
Record SlFileDropzone := {
  warning : option string;
  files : list ref;
  disabled : bool;
  noDrag : bool;
  accept : string;
  maxFileSize : option Z;
  maxFiles : Z;
  url : option string;
  method : HttpMethod;
  headers : option (list (string * string));
  withCredentials : bool;
  binaryBody : bool;
  heap : list FileInfo.t;
  emitted : list CustomEvent
}.

Definition with_warning (w : option string) (c : SlFileDropzone) : SlFileDropzone :=
  {| warning := w; files := files c; disabled := disabled c; noDrag := noDrag c;
     accept := accept c; maxFileSize := maxFileSize c; maxFiles := maxFiles c;
     url := url c; method := method c; headers := headers c;
     withCredentials := withCredentials c; binaryBody := binaryBody c;
     heap := heap c; emitted := emitted c |}.

Definition with_files (l : list ref) (c : SlFileDropzone) : SlFileDropzone :=
  {| warning := warning c; files := l; disabled := disabled c; noDrag := noDrag c;
     accept := accept c; maxFileSize := maxFileSize c; maxFiles := maxFiles c;
     url := url c; method := method c; headers := headers c;
     withCredentials := withCredentials c; binaryBody := binaryBody c;
     heap := heap c; emitted := emitted c |}.

Definition with_heap (h : list FileInfo.t) (c : SlFileDropzone) : SlFileDropzone :=
  {| warning := warning c; files := files c; disabled := disabled c; noDrag := noDrag c;
     accept := accept c; maxFileSize := maxFileSize c; maxFiles := maxFiles c;
     url := url c; method := method c; headers := headers c;
     withCredentials := withCredentials c; binaryBody := binaryBody c;
     heap := h; emitted := emitted c |}.

Definition with_emitted (e : list CustomEvent) (c : SlFileDropzone) : SlFileDropzone :=
  {| warning := warning c; files := files c; disabled := disabled c; noDrag := noDrag c;
     accept := accept c; maxFileSize := maxFileSize c; maxFiles := maxFiles c;
     url := url c; method := method c; headers := headers c;
     withCredentials := withCredentials c; binaryBody := binaryBody c;
     heap := heap c; emitted := e |}.

(** What the component imports and what the browser does on [abort()]:
    the two validators of ./library, the term lookup of the
    [LocalizeController], and the event, if any, that [abort()] delivers
    to the upload's [onabort] handler before it returns. *)
Record Env := {
  hasValidFileType : File.t -> string -> bool;
  hasValidFileSize : File.t -> option Z -> bool;
  term : string -> string;
  upload_abort : option ProgressEvent
}.

(** ** Methods as state transformers that may throw *)

Inductive JsError := TypeError.

(** [Stuck] is not a JavaScript outcome: it marks a reference with no
    object behind it, which no run of the methods produces. *)
Inductive Completion (A : Type) :=
| Normal (a : A) (this : SlFileDropzone)
| Throw (e : JsError) (this : SlFileDropzone)
| Stuck.
Arguments Normal {A} a this.
Arguments Throw {A} e this.
Arguments Stuck {A}.

Definition M (A : Type) := SlFileDropzone -> Completion A.

Definition ret {A} (a : A) : M A := fun this => Normal a this.

Definition bind {A B} (c : M A) (k : A -> M B) : M B :=
  fun this =>
    match c this with
    | Normal a this' => k a this'
    | Throw e this' => Throw e this'
    | Stuck => Stuck
    end.

Notation "x <- c ;; k" := (bind c (fun x => k))
  (at level 100, c at next level, right associativity).
Notation "c ;; k" := (bind c (fun _ => k))
  (at level 100, right associativity).

Definition throw {A} (e : JsError) : M A := fun this => Throw e this.
Definition get_this : M SlFileDropzone := fun this => Normal this this.
Definition set_warning (w : option string) : M unit :=
  fun this => Normal tt (with_warning w this).
Definition set_files (l : list ref) : M unit :=
  fun this => Normal tt (with_files l this).
Definition emit (e : CustomEvent) : M unit :=
  fun this => Normal tt (with_emitted (emitted this ++ [e]) this).
Definition requestUpdate : M unit := ret tt.

(** [const fileInfo: FileInfo = { file }]. *)
Definition new_FileInfo (f : File.t) : M ref :=
  fun this => Normal (length (heap this)) (with_heap (heap this ++ [FileInfo.new f]) this).

(** Reading and writing the object behind a reference. *)
Definition deref (r : ref) : M FileInfo.t :=
  fun this =>
    match heap this !! r with
    | Some i => Normal i this
    | None => Stuck
    end.

Definition store (r : ref) (i : FileInfo.t) (this : SlFileDropzone) : SlFileDropzone :=
  with_heap (<[r := i]> (heap this)) this.

Definition update (r : ref) (f : FileInfo.t -> FileInfo.t) : M unit :=
  fun this =>
    match heap this !! r with
    | Some i => Normal tt (store r (f i) this)
    | None => Stuck
    end.

Fixpoint forEach {A} (l : list A) (f : A -> M unit) : M unit :=
  match l with
  | [] => ret tt
  | x :: l' => f x ;; forEach l' f
  end.

(** [array[index]] and [array.filter((_, i) => ...)] for a [number]
    index: an index below zero or past the end reads [undefined]. *)
Definition at_index {A} (l : list A) (index : Z) : option A :=
  if (index <? 0)%Z then None else l !! Z.to_nat index.

Fixpoint filter_from {A} (keep : A -> Z -> bool) (i : Z) (l : list A) : list A :=
  match l with
  | [] => []
  | x :: l' =>
      if keep x i then x :: filter_from keep (i + 1) l' else filter_from keep (i + 1) l'
  end.

Definition filter_indexed {A} (keep : A -> Z -> bool) (l : list A) : list A :=
  filter_from keep 0 l.

(** [(loaded / total) * 100]: a zero [total] gives [NaN] for a zero
    [loaded] and [Infinity] otherwise, and both survive the product.  A
    finite value is kept in lowest terms, so that equal numbers are
    equal terms. *)
Definition percent (loaded total : N) : number :=
  if (total =? 0)%N then
    if (loaded =? 0)%N then NaN else Infinity
  else Finite (Qred (inject_Z (Z.of_N loaded) / inject_Z (Z.of_N total) * 100)%Q).

Section Methods.

Variable E : Env.

Definition multiple (this : SlFileDropzone) : bool := (maxFiles this >? 1)%Z.

Definition updateTransferProgress (progressEvent : ProgressEvent) (fileInfo : ref) : M unit :=
  if lengthComputable progressEvent then
    (update fileInfo
       (FileInfo.set_progress (percent (loaded progressEvent) (total progressEvent))) ;;
     requestUpdate)
  else ret tt.

Definition onTransferComplete (event : ProgressEvent) (httpRequest : XhrResult)
    (fileInfo : ref) : M unit :=
  update fileInfo (FileInfo.set_loading false) ;;
  (if (status httpRequest =? 200)%Z then
     emit (sl_load (response httpRequest))
   else
     (update fileInfo (FileInfo.set_warning (term E "serverError")) ;;
      update fileInfo (FileInfo.set_accepted false) ;;
      emit (sl_error event))) ;;
  requestUpdate.

Definition onTransferError (event : ProgressEvent) (fileInfo : ref) : M unit :=
  update fileInfo (FileInfo.set_loading false) ;;
  update fileInfo (FileInfo.set_warning (term E "transferError")) ;;
  update fileInfo (FileInfo.set_accepted false) ;;
  requestUpdate ;;
  emit (sl_error event).

Definition onTransferAbort (event : ProgressEvent) (fileInfo : ref) : M unit :=
  update fileInfo (FileInfo.set_loading false) ;;
  update fileInfo (FileInfo.set_warning (term E "transferAbort")) ;;
  update fileInfo (FileInfo.set_accepted false) ;;
  requestUpdate ;;
  emit (sl_abort (AbortEvent event)).

(** The four handlers [uploadFile] installs on [xhr.upload] are the
    four methods above applied to [fileInfo]; the browser calls them
    later, so installing them changes nothing here. *)
Definition uploadFile (fileInfo : ref) (url : string) : M unit :=
  update fileInfo (FileInfo.set_loading true) ;;
  update fileInfo (FileInfo.set_progress (Finite 0)) ;;
  update fileInfo (FileInfo.set_xhr Xhr.new) ;;
  this <- get_this ;;
  update fileInfo (FileInfo.on_xhr (Xhr.open (method this) url)) ;;
  match headers this with
  | Some hs =>
      forEach hs (fun entry =>
        update fileInfo (FileInfo.on_xhr (Xhr.setRequestHeader (fst entry) (snd entry))))
  | None => ret tt
  end ;;
  (if withCredentials this then
     update fileInfo (FileInfo.on_xhr (Xhr.set_withCredentials true))
   else ret tt) ;;
  info <- deref fileInfo ;;
  let file := FileInfo.file info in
  if binaryBody this then
    (update fileInfo (FileInfo.on_xhr (Xhr.setRequestHeader "Content-Type" (File.type file))) ;;
     update fileInfo (FileInfo.on_xhr (Xhr.send (BinaryBody file))))
  else
    (let formData := [(File.name file, file)] in
     update fileInfo (FileInfo.on_xhr (Xhr.setRequestHeader "Content-Type" "multipart/form-data")) ;;
     update fileInfo (FileInfo.on_xhr (Xhr.send (FormData formData)))).

Definition addFile (file : File.t) : M unit :=
  this <- get_this ;;
  if truthy_number (maxFiles this) && (Z.of_nat (length (files this)) >=? maxFiles this)%Z then
    set_warning (Some (term E "maxFiles"))
  else
    (fileInfo <- new_FileInfo file ;;
     (if negb (hasValidFileType E file (accept this)) then
        (update fileInfo (FileInfo.set_accepted false) ;;
         update fileInfo (FileInfo.set_warning (term E "fileTypeNotAccepted")))
      else if negb (hasValidFileSize E file (maxFileSize this)) then
        (update fileInfo (FileInfo.set_accepted false) ;;
         update fileInfo (FileInfo.set_warning (term E "fileSizeExceeded")))
      else
        update fileInfo (FileInfo.set_accepted true)) ;;
     set_files (if multiple this then files this ++ [fileInfo] else [fileInfo]) ;;
     match url this with
     | Some u => if truthy_string (Some u) then uploadFile fileInfo u else ret tt
     | None => ret tt
     end).

Definition handleFiles (fileList : option FileList) : M unit :=
  match fileList with
  | None => ret tt
  | Some fileList =>
      if (length fileList =? 0)%nat then ret tt
      else
        (set_warning None ;;
         this <- get_this ;;
         if negb (multiple this) && (1 <? length fileList)%nat then
           set_warning (Some (term E "noMultipleFiles"))
         else
           (emit (sl_change fileList) ;;
            forEach fileList addFile))
  end.

(** [event.detail.dataTransfer?.files] is the argument. *)
Definition onDrop (dropped : option FileList) : M unit :=
  this <- get_this ;;
  match dropped with
  | None => ret tt
  | Some fileList =>
      if disabled this || noDrag this then ret tt else handleFiles (Some fileList)
  end.

(** [this.fileInput.files] is the argument. *)
Definition handleFileInputChange (inputFiles : option FileList) : M unit :=
  emit sl_select ;;
  handleFiles inputFiles.

(** [fileInfo.xhr?.abort()]: the request is marked, and where the
    browser reports the abort to the upload's handler at once,
    [onTransferAbort] runs before [abort()] returns. *)
Definition xhr_abort (fileInfo : ref) : M unit :=
  info <- deref fileInfo ;;
  match FileInfo.xhr info with
  | None => ret tt
  | Some _ =>
      update fileInfo (FileInfo.on_xhr Xhr.abort) ;;
      match upload_abort E with
      | Some event => onTransferAbort event fileInfo
      | None => ret tt
      end
  end.

(** [this.files[index]] is [undefined] for an index out of range, and
    reading [.loading] of [undefined] throws a [TypeError]. *)
Definition handleFileRemove (index : Z) : M unit :=
  this <- get_this ;;
  match at_index (files this) index with
  | None => throw TypeError
  | Some fileInfo =>
      info <- deref fileInfo ;;
      (if truthy_bool (FileInfo.loading info) then
         (xhr_abort fileInfo ;;
          emit (sl_abort (AbortFile fileInfo)))
       else
         emit (sl_remove fileInfo)) ;;
      this <- get_this ;;
      set_files (filter_indexed (fun _ fileIndex => negb (fileIndex =? index)%Z) (files this))
  end.

End Methods.

(** ** A concrete environment *)

(** The component as its property initialisers leave it. *)
Definition new_SlFileDropzone : SlFileDropzone :=
  {| warning := None; files := []; disabled := false; noDrag := false;
     accept := "*"; maxFileSize := None; maxFiles := 1; url := None;
     method := POST; headers := None; withCredentials := false; binaryBody := false;
     heap := []; emitted := [] |}.

Definition with_maxFiles (n : Z) (c : SlFileDropzone) : SlFileDropzone :=
  {| warning := warning c; files := files c; disabled := disabled c; noDrag := noDrag c;
     accept := accept c; maxFileSize := maxFileSize c; maxFiles := n;
     url := url c; method := method c; headers := headers c;
     withCredentials := withCredentials c; binaryBody := binaryBody c;
     heap := heap c; emitted := emitted c |}.

Definition with_accept (a : string) (c : SlFileDropzone) : SlFileDropzone :=
  {| warning := warning c; files := files c; disabled := disabled c; noDrag := noDrag c;
     accept := a; maxFileSize := maxFileSize c; maxFiles := maxFiles c;
     url := url c; method := method c; headers := headers c;
     withCredentials := withCredentials c; binaryBody := binaryBody c;
     heap := heap c; emitted := emitted c |}.

Definition with_url (u : option string) (c : SlFileDropzone) : SlFileDropzone :=
  {| warning := warning c; files := files c; disabled := disabled c; noDrag := noDrag c;
     accept := accept c; maxFileSize := maxFileSize c; maxFiles := maxFiles c;
     url := u; method := method c; headers := headers c;
     withCredentials := withCredentials c; binaryBody := binaryBody c;
     heap := heap c; emitted := emitted c |}.

(** The terms of the Spanish translation (translations/es.ts); the
    terms the dropzone asks for are empty strings there. *)
Definition es_translation : list (string * string) :=
  [ ("browseFiles", ""); ("clearEntry", "Borrar entrada"); ("close", "Cerrar");
    ("copy", "Copiar"); ("currentValue", "Valor actual"); ("dragDrop", "");
    ("fileSizeExceeded", ""); ("fileTypeNotAccepted", "");
    ("hidePassword", "Ocultar contraseña"); ("loading", "Cargando");
    ("maxFiles", ""); ("noMultipleFiles", ""); ("progress", "Progreso");
    ("remove", "Eliminar"); ("resize", "Cambiar el tamaño");
    ("scrollToEnd", "Desplazarse hasta el final");
    ("scrollToStart", "Desplazarse al inicio");
    ("selectAColorFromTheScreen", "Seleccione un color de la pantalla");
    ("serverError", ""); ("showPassword", "Mostrar contraseña");
    ("toggleColorFormat", "Alternar formato de color");
    ("transferAbort", ""); ("transferError", "") ].

(** Modelled from the spec: the term lookup of the [LocalizeController]
    (utilities/localize, not among the sources), a string provider
    looked up by key.  A key the table lacks is given back as it is. *)
Fixpoint lookup_term (table : list (string * string)) (key : string) : string :=
  match table with
  | [] => key
  | (k, v) :: table' => if (k =? key)%string then v else lookup_term table' key
  end.

(** Modelled from the spec: [hasValidFileSize] of ./library, which is
    not among the sources.  It passes when no maximum is set, and
    otherwise when the file's size is at most the maximum. *)
Definition spec_hasValidFileSize (file : File.t) (maxFileSize : option Z) : bool :=
  match maxFileSize with
  | None => true
  | Some m => (File.size file <=? m)%Z
  end.

(** Modelled from the spec: the set of patterns of an accept string
    for [hasValidFileType], taken as its comma-separated items, blanks
    dropped. *)
Fixpoint accept_patterns (s : string) (item : string) : list string :=
  match s with
  | EmptyString => if (item =? "")%string then [] else [item]
  | String c s' =>
      if Ascii.eqb c ","%char then
        (if (item =? "")%string then accept_patterns s' ""
         else item :: accept_patterns s' "")
      else if Ascii.eqb c " "%char then accept_patterns s' item
      else accept_patterns s' (item ++ String c "")
  end.

(** Whether [s] ends in [suffix]. *)
Definition ends_with (suffix s : string) : bool :=
  let n := String.length s in
  let m := String.length suffix in
  (m <=? n)%nat && (substring (n - m) m s =? suffix)%string.

(** Modelled from the spec: one pattern of [hasValidFileType].  A
    file-extension pattern [.ext] compares with the end of the file's
    name, a media-type pattern with a wildcard subtype [category/*] with
    the start of its media type, any other pattern with the whole media
    type. *)
Definition pattern_matches (file : File.t) (pattern : string) : bool :=
  if String.prefix "." pattern then ends_with pattern (File.name file)
  else if ends_with "/*" pattern then
    String.prefix (substring 0 (String.length pattern - 1) pattern) (File.type file)
  else (File.type file =? pattern)%string.

(** Modelled from the spec: [hasValidFileType] of ./library, which is
    not among the sources.  The wildcard accepts every file; otherwise
    the file has to match one of the patterns, so no pattern rejects
    every file. *)
Definition spec_hasValidFileType (file : File.t) (accept : string) : bool :=
  if (accept =? "*")%string then true
  else existsb (pattern_matches file) (accept_patterns accept "").

(** An environment whose browser reports an abort to the upload's
    handler before [abort()] returns, and one whose browser does not. *)
Definition abort_event : ProgressEvent :=
  {| lengthComputable := false; loaded := 0; total := 0 |}.

Definition es_env : Env :=
  {| hasValidFileType := spec_hasValidFileType;
     hasValidFileSize := spec_hasValidFileSize;
     term := lookup_term es_translation;
     upload_abort := Some abort_event |}.

Definition es_env_quiet : Env :=
  {| hasValidFileType := spec_hasValidFileType;
     hasValidFileSize := spec_hasValidFileSize;
     term := lookup_term es_translation;
     upload_abort := None |}.

Definition a_png : File.t := {| File.name := "a.png"; File.size := 1024; File.type := "image/png" |}.
Definition b_png : File.t := {| File.name := "b.png"; File.size := 2048; File.type := "image/png" |}.
Definition b_txt : File.t := {| File.name := "b.txt"; File.size := 1024; File.type := "text/plain" |}.

(** The state a method leaves, whether it returned or threw. *)
Definition state_after {A} (c : Completion A) : option SlFileDropzone :=
  match c with
  | Normal _ this => Some this
  | Throw _ this => Some this
  | Stuck => None
  end.


(** A field of the object behind [r] once a method has run. *)
Definition field_after {A B} (field : FileInfo.t -> B) (r : ref) (c : Completion A)
    : option B :=
  match state_after c with
  | Some this => field <$> heap this !! r
  | None => None
  end.

(** ** Progress reports of one transfer *)

(** The progress stored after each of a run of progress callbacks for
    the same object. *)
Fixpoint progress_trace (events : list ProgressEvent) (fileInfo : ref)
    (this : SlFileDropzone) : list (option number) :=
  match events with
  | [] => []
  | event :: events' =>
      match updateTransferProgress event fileInfo this with
      | Normal _ this' =>
          (heap this' !! fileInfo ≫= FileInfo.progress)
            :: progress_trace events' fileInfo this'
      | _ => []
      end
  end.

Definition in_range (n : number) : Prop :=
  match n with
  | Finite q => (0 <= q /\ q <= 100)%Q
  | _ => False
  end.

Definition number_le (a b : number) : Prop :=
  match a, b with
  | Finite p, Finite q => (p <= q)%Q
  | _, _ => False
  end.

Fixpoint nondecreasing_from (prev : number) (l : list (option number)) : Prop :=
  match l with
  | [] => True
  | Some n :: l' => number_le prev n /\ nondecreasing_from n l'
  | None :: _ => False
  end.

(** What a transport that behaves reports: every computable report has
    a positive [total] and a [loaded] of at most [total], and its
    fraction [loaded / total] is at least the fraction [l0 / t0] of the
    computable report before it. *)
Fixpoint reports_behave (l0 t0 : N) (events : list ProgressEvent) : bool :=
  match events with
  | [] => true
  | event :: events' =>
      if lengthComputable event then
        (0 <? total event)%N && (loaded event <=? total event)%N
        && (l0 * total event <=? loaded event * t0)%N
        && reports_behave (loaded event) (total event) events'
      else reports_behave l0 t0 events'
  end.

(** The files behind the entries of the list. *)
Definition listed_files (this : SlFileDropzone) : list (option File.t) :=
  map (fun r => FileInfo.file <$> heap this !! r) (files this).

(** ** States used in the examples *)

(** The state a run leaves, or [this] when the run is stuck. *)
Definition run {A} (c : M A) (this : SlFileDropzone) : SlFileDropzone :=
  match state_after (c this) with
  | Some this' => this'
  | None => this
  end.

(** a.png dropped on a new dropzone, and then removed again. *)
Definition holding_a_png : SlFileDropzone :=
  run (handleFiles es_env (Some [a_png])) new_SlFileDropzone.

Definition emptied_again : SlFileDropzone :=
  run (handleFileRemove es_env 0) holding_a_png.

(** A dropzone with an upload URL, and the same after a.png was dropped
    on it. *)
Definition uploading_dropzone : SlFileDropzone :=
  with_url (Some "https://example.org/upload") new_SlFileDropzone.

Definition uploading_a_png : SlFileDropzone :=
  run (handleFiles es_env (Some [a_png])) uploading_dropzone.

(** The request [uploadFile] has built and sent when it returns. *)
Definition upload_request (this : SlFileDropzone) (file : File.t) (u : string) : Xhr.t :=
  let opened := Xhr.open (method this) u Xhr.new in
  let with_headers :=
    match headers this with
    | Some hs =>
        fold_left (fun x entry => Xhr.setRequestHeader (fst entry) (snd entry) x) hs opened
    | None => opened
    end in
  let with_credentials :=
    if withCredentials this then Xhr.set_withCredentials true with_headers
    else with_headers in
  if binaryBody this then
    Xhr.send (BinaryBody file)
      (Xhr.setRequestHeader "Content-Type" (File.type file) with_credentials)
  else
    Xhr.send (FormData [(File.name file, file)])
      (Xhr.setRequestHeader "Content-Type" "multipart/form-data" with_credentials).

(** The object [uploadFile] leaves behind [fileInfo]. *)
Definition uploading (this : SlFileDropzone) (u : string) (info : FileInfo.t) : FileInfo.t :=
  {| FileInfo.file := FileInfo.file info;
     FileInfo.accepted := FileInfo.accepted info;
     FileInfo.warning := FileInfo.warning info;
     FileInfo.loading := Some true;
     FileInfo.progress := Some (Finite 0);
     FileInfo.xhr := Some (upload_request this (FileInfo.file info) u) |}.

(** The object [addFile] has made of [file] when validation is over. *)
Definition validated (E : Env) (this : SlFileDropzone) (file : File.t) : FileInfo.t :=
  if negb (hasValidFileType E file (accept this)) then
    FileInfo.set_warning (term E "fileTypeNotAccepted")
      (FileInfo.set_accepted false (FileInfo.new file))
  else if negb (hasValidFileSize E file (maxFileSize this)) then
    FileInfo.set_warning (term E "fileSizeExceeded")
      (FileInfo.set_accepted false (FileInfo.new file))
  else FileInfo.set_accepted true (FileInfo.new file).

(** The capacity test at the head of [addFile]. *)
Definition full (this : SlFileDropzone) : bool :=
  truthy_number (maxFiles this) && (Z.of_nat (length (files this)) >=? maxFiles this)%Z.

(** The [sl-abort] of [onTransferAbort], where the browser delivers the
    abort of a request while [abort()] runs. *)
Definition abort_reported (E : Env) (info : FileInfo.t) : list CustomEvent :=
  match FileInfo.xhr info, upload_abort E with
  | Some _, Some event => [sl_abort (AbortEvent event)]
  | _, _ => []
  end.

(** A dropzone with an upload URL that accepts images only, and the
    object behind entry 0 once a.png was dropped on [uploading_dropzone]. *)
Definition images_only_dropzone : SlFileDropzone :=
  with_accept "image/*" uploading_dropzone.

Definition a_png_uploading : FileInfo.t :=
  uploading uploading_dropzone "https://example.org/upload"
    (FileInfo.set_accepted true (FileInfo.new a_png)).

(** Every entry of [files] has an object behind it. *)
Definition well_formed (this : SlFileDropzone) : Prop :=
  Forall (fun r => (r < length (heap this))%nat) (files this).

(** ** The methods as reactions to what the page and the browser do *)

(** The properties no method writes. *)
Definition props (this : SlFileDropzone) :=
  (disabled this, noDrag this, accept this, maxFileSize this, maxFiles this,
   url this, method this, headers this, withCredentials this, binaryBody this).

(** The state [addFile] leaves when the list is not full. *)
Definition added (E : Env) (file : File.t) (this : SlFileDropzone) : SlFileDropzone :=
  let fileInfo := length (heap this) in
  let entered :=
    with_files (if multiple this then files this ++ [fileInfo] else [fileInfo])
      (with_heap (heap this ++ [validated E this file]) this) in
  match url this with
  | Some u =>
      if truthy_string (Some u)
      then store fileInfo (uploading this u (validated E this file)) entered
      else entered
  | None => entered
  end.

(** The state [handleFileRemove] leaves before it filters [files], for
    the object [info] behind the entry [fileInfo]. *)
Definition notified (E : Env) (fileInfo : ref) (info : FileInfo.t) (this : SlFileDropzone)
    : SlFileDropzone :=
  if truthy_bool (FileInfo.loading info) then
    let aborted :=
      match FileInfo.xhr info, upload_abort E with
      | None, _ => this
      | Some _, None => store fileInfo (FileInfo.on_xhr Xhr.abort info) this
      | Some _, Some event =>
          let this' :=
            store fileInfo
              (FileInfo.set_accepted false
                 (FileInfo.set_warning (term E "transferAbort")
                    (FileInfo.set_loading false (FileInfo.on_xhr Xhr.abort info)))) this in
          with_emitted (emitted this' ++ [sl_abort (AbortEvent event)]) this'
      end in
    with_emitted (emitted aborted ++ [sl_abort (AbortFile fileInfo)]) aborted
  else with_emitted (emitted this ++ [sl_remove fileInfo]) this.

(** Who calls the methods: the drop handler and the file input of
    [render] ([@sl-drop], [@change]), the [@sl-hide] of a list item for
    its index, and the four handlers [uploadFile] installs on the
    upload of a request for its object. *)
Inductive Input :=
| Dropped (dropped : option FileList)
| InputChanged (inputFiles : option FileList)
| ItemHidden (index : Z)
| UploadProgress (event : ProgressEvent) (fileInfo : ref)
| UploadLoad (event : ProgressEvent) (httpRequest : XhrResult) (fileInfo : ref)
| UploadError (event : ProgressEvent) (fileInfo : ref)
| UploadAbort (event : ProgressEvent) (fileInfo : ref).

Definition react (E : Env) (input : Input) : M unit :=
  match input with
  | Dropped dropped => onDrop E dropped
  | InputChanged inputFiles => handleFileInputChange E inputFiles
  | ItemHidden index => handleFileRemove E index
  | UploadProgress event fileInfo => updateTransferProgress event fileInfo
  | UploadLoad event httpRequest fileInfo => onTransferComplete E event httpRequest fileInfo
  | UploadError event fileInfo => onTransferError E event fileInfo
  | UploadAbort event fileInfo => onTransferAbort E event fileInfo
  end.

(** A handler of an upload is only ever called for an object that
    exists: [uploadFile] installed it for an object of the store. *)
Definition expected (input : Input) (this : SlFileDropzone) : Prop :=
  match input with
  | UploadProgress _ fileInfo | UploadLoad _ _ fileInfo
  | UploadError _ fileInfo | UploadAbort _ fileInfo =>
      (fileInfo < length (heap this))%nat
  | _ => True
  end.

(** ** What [render] shows *)


(** The bindings of one [sl-file-item] in [render]: its attributes, its
    text and the name of its icon.  [closable] is the component's
    property of that name. *)
Record FileItem := {
  item_size : option Z;
  item_warning : bool;
  item_closable : bool;
  item_loading : bool;
  item_progress : option number;
  item_text : option string;
  item_icon : string
}.

Definition file_item (closable : bool) (fileInfo : FileInfo.t) : FileItem :=
  let accepted := truthy_bool (FileInfo.accepted fileInfo) in
  {| item_size := if accepted then Some (File.size (FileInfo.file fileInfo)) else None;
     item_warning := negb accepted;
     item_closable := if accepted then closable else true;
     item_loading := truthy_bool (FileInfo.loading fileInfo);
     item_progress := FileInfo.progress fileInfo;
     item_text :=
       if accepted then Some (File.name (FileInfo.file fileInfo))
       else FileInfo.warning fileInfo;
     item_icon :=
       if truthy_string (FileInfo.warning fileInfo) then "exclamation-triangle"
       else "file-earmark" |}.

(** The terms of the Persian translation (translations/fa.ts); as in
    the Spanish one, the terms the dropzone asks for are empty. *)
Definition fa_translation : list (string * string) :=
  [ ("browseFiles", ""); ("clearEntry", "پاک کردن ورودی"); ("close", "بستن");
    ("copy", "کپی"); ("currentValue", "مقدار فعلی"); ("dragDrop", "");
    ("fileSizeExceeded", ""); ("fileTypeNotAccepted", "");
    ("hidePassword", "پنهان کردن رمز"); ("loading", "بارگذاری");
    ("maxFiles", ""); ("noMultipleFiles", ""); ("progress", "پیشرفت");
    ("remove", "حذف"); ("resize", "تغییر اندازه");
    ("scrollToEnd", "اسکرول به انتها"); ("scrollToStart", "اسکرول به ابتدا");
    ("selectAColorFromTheScreen", "انتخاب یک رنگ از صفحه نمایش");
    ("serverError", ""); ("showPassword", "نمایش دادن رمز");
    ("toggleColorFormat", "تغییر فرمت رنگ");
    ("transferAbort", ""); ("transferError", "") ].

(** The terms the dropzone looks up. *)
Definition dropzone_terms : list string :=
  [ "maxFiles"; "fileTypeNotAccepted"; "fileSizeExceeded"; "noMultipleFiles";
    "serverError"; "transferError"; "transferAbort"; "dragDrop"; "browseFiles" ].

(** What the fields of one object say together: it has a verdict, it
    has no warning exactly when the verdict is accepted, and if it is
    loading it has a request. *)
Definition consistent (info : FileInfo.t) : Prop :=
  FileInfo.accepted info <> None
  /\ (FileInfo.warning info = None <-> FileInfo.accepted info = Some true)
  /\ (truthy_bool (FileInfo.loading info) = true -> FileInfo.xhr info <> None).


(** ** The object store *)

Lemma heap_store_eq r i x this :
  heap this !! r = Some i -> heap (store r x this) !! r = Some x.
Proof.
  intros Hr. unfold store. simpl.
  apply list_lookup_insert_eq. eapply lookup_lt_Some. exact Hr.
Qed.

Lemma store_store r x y this : store r y (store r x this) = store r y this.
Proof.
  unfold store, with_heap. simpl. f_equal. apply list_insert_insert_eq.
Qed.

Lemma length_heap_store r x this : length (heap (store r x this)) = length (heap this).
Proof. unfold store. simpl. apply length_insert. Qed.

Lemma bind_update {A} r f (k : M A) this i :
  heap this !! r = Some i ->
  (update r f ;; k) this = k (store r (f i) this).
Proof. intros Hr. unfold bind, update. rewrite Hr. reflexivity. Qed.

Lemma update_eq r f this i :
  heap this !! r = Some i -> update r f this = Normal tt (store r (f i) this).
Proof. intros Hr. unfold update. rewrite Hr. reflexivity. Qed.

Lemma bind_deref {A} r (k : FileInfo.t -> M A) this i :
  heap this !! r = Some i -> (info <- deref r ;; k info) this = k i this.
Proof. intros Hr. unfold bind, deref. rewrite Hr. reflexivity. Qed.

Lemma bind_emit {A} e (k : M A) this :
  (emit e ;; k) this = k (with_emitted (emitted this ++ [e]) this).
Proof. reflexivity. Qed.

Lemma bind_ret {A B} (a : A) (k : A -> M B) this : (x <- ret a ;; k x) this = k a this.
Proof. reflexivity. Qed.

Lemma bind_get_this {A} (k : SlFileDropzone -> M A) this :
  (c <- get_this ;; k c) this = k this this.
Proof. reflexivity. Qed.

Ltac lookup_stored := repeat first [eassumption | eapply heap_store_eq].

(** Closed goals: split the conjunctions, then evaluate. *)
Ltac by_evaluation :=
  repeat match goal with |- _ /\ _ => split end; vm_compute; reflexivity.

Ltac run_updates :=
  repeat first
    [ erewrite bind_update by lookup_stored
    | erewrite update_eq by lookup_stored
    | rewrite store_store ].

Lemma store_same r i this : heap this !! r = Some i -> store r i this = this.
Proof.
  intros Hr. destruct this. unfold store, with_heap. simpl in *.
  f_equal. apply list_insert_id. exact Hr.
Qed.

Lemma forEach_setRequestHeader hs r this i x :
  heap this !! r = Some i ->
  FileInfo.xhr i = Some x ->
  forEach hs (fun entry =>
    update r (FileInfo.on_xhr (Xhr.setRequestHeader (fst entry) (snd entry)))) this
  = Normal tt
      (store r
         (FileInfo.set_xhr
            (fold_left (fun x entry => Xhr.setRequestHeader (fst entry) (snd entry) x) hs x) i)
         this).
Proof.
  revert this i x. induction hs as [|entry hs IH]; intros this i x Hr Hx; simpl.
  - replace (FileInfo.set_xhr x i) with i
      by (destruct i; simpl in Hx; subst; reflexivity).
    rewrite store_same by exact Hr. reflexivity.
  - erewrite bind_update by exact Hr.
    erewrite IH; [| eapply heap_store_eq; exact Hr | simpl; rewrite Hx; reflexivity ].
    rewrite store_store. reflexivity.
Qed.

Lemma uploadFile_eq r u this info :
  heap this !! r = Some info ->
  uploadFile r u this = Normal tt (store r (uploading this u info) this).
Proof.
  intros Hr. unfold uploadFile. run_updates. rewrite bind_get_this. run_updates.
  unfold uploading, upload_request. simpl.
  destruct (headers this) as [hs|].
  - unfold bind at 1.
    erewrite forEach_setRequestHeader; [| lookup_stored | reflexivity ].
    rewrite store_store.
    destruct (withCredentials this); run_updates; try rewrite bind_ret;
      (erewrite bind_deref by lookup_stored);
      destruct (binaryBody this); run_updates; reflexivity.
  - unfold bind at 1. unfold ret at 1.
    destruct (withCredentials this); run_updates; try rewrite bind_ret;
      (erewrite bind_deref by lookup_stored);
      destruct (binaryBody this); run_updates; reflexivity.
Qed.



Lemma heap_alloc_lookup (h : list FileInfo.t) (i : FileInfo.t) :
  (h ++ [i]) !! length h = Some i.
Proof. rewrite lookup_app_r by lia. rewrite Nat.sub_diag. reflexivity. Qed.

Lemma addFile_not_full (E : Env) (file : File.t) (this : SlFileDropzone) :
  full this = false ->
  let fileInfo := length (heap this) in
  let entered :=
    with_files (if multiple this then files this ++ [fileInfo] else [fileInfo])
      (with_heap (heap this ++ [validated E this file]) this) in
  addFile E file this
  = match url this with
    | Some u =>
        if truthy_string (Some u)
        then Normal tt (store fileInfo (uploading this u (validated E this file)) entered)
        else Normal tt entered
    | None => Normal tt entered
    end.
Proof.
  intros Hfree fileInfo entered. unfold addFile. rewrite bind_get_this.
  unfold full in Hfree. rewrite Hfree.
  unfold bind at 1. unfold new_FileInfo.
  assert (Hnew : forall f,
    heap (with_heap (heap this ++ [f]) this) !! length (heap this) = Some f)
    by (intros f; simpl; apply heap_alloc_lookup).
  assert (Hput : forall f g,
    store (length (heap this)) g (with_heap (heap this ++ [f]) this)
    = with_heap (heap this ++ [g]) this).
  { intros f g. unfold store, with_heap. simpl. f_equal.
    rewrite insert_app_r_alt by lia. rewrite Nat.sub_diag. reflexivity. }
  assert (Hval :
    (if negb (hasValidFileType E file (accept this)) then
       (update fileInfo (FileInfo.set_accepted false) ;;
        update fileInfo (FileInfo.set_warning (term E "fileTypeNotAccepted")))
     else if negb (hasValidFileSize E file (maxFileSize this)) then
       (update fileInfo (FileInfo.set_accepted false) ;;
        update fileInfo (FileInfo.set_warning (term E "fileSizeExceeded")))
     else update fileInfo (FileInfo.set_accepted true))
      (with_heap (heap this ++ [FileInfo.new file]) this)
    = Normal tt (with_heap (heap this ++ [validated E this file]) this)).
  { unfold validated, fileInfo.
    destruct (negb (hasValidFileType E file (accept this)));
      [| destruct (negb (hasValidFileSize E file (maxFileSize this)))];
      repeat first [ erewrite bind_update by apply Hnew
                   | erewrite update_eq by apply Hnew
                   | rewrite Hput ];
      reflexivity. }
  unfold bind at 1. fold fileInfo. rewrite Hval.
  unfold bind at 1. unfold set_files at 1. fold entered.
  destruct (url this) as [u|]; [|reflexivity].
  destruct (truthy_string (Some u)); [|reflexivity].
  erewrite uploadFile_eq by (unfold entered; simpl; apply heap_alloc_lookup).
  reflexivity.
Qed.

(** ** Intake never stops short *)

Lemma addFile_returns (E : Env) (file : File.t) (this : SlFileDropzone) :
  well_formed this ->
  exists this', addFile E file this = Normal tt this' /\ well_formed this'.
Proof.
  intros Hwf. destruct (full this) eqn:Hfull.
  - exists (with_warning (Some (term E "maxFiles")) this).
    split; [|exact Hwf].
    unfold addFile. rewrite bind_get_this. unfold full in Hfull. rewrite Hfull.
    reflexivity.
  - pose proof (addFile_not_full E file this Hfull) as Hadd. cbv zeta in Hadd.
    assert (Hentered : well_formed
      (with_files
         (if multiple this then files this ++ [length (heap this)]
          else [length (heap this)])
         (with_heap (heap this ++ [validated E this file]) this))).
    { unfold well_formed. simpl. rewrite length_app. simpl.
      destruct (multiple this).
      - apply Forall_app. split.
        + eapply Forall_impl; [exact Hwf|]. simpl. intros r Hr. lia.
        + constructor; [lia|constructor].
      - constructor; [lia|constructor]. }
    destruct (url this) as [u|]; [destruct (truthy_string (Some u))|];
      eexists; (split; [exact Hadd|]); try exact Hentered.
    unfold well_formed in *. rewrite length_heap_store. exact Hentered.
Qed.

Lemma forEach_addFile_returns (E : Env) (fileList : FileList) :
  forall this,
    well_formed this ->
    exists this', forEach fileList (addFile E) this = Normal tt this' /\ well_formed this'.
Proof.
  induction fileList as [|file fileList IH]; intros this Hwf; simpl.
  - exists this. split; [reflexivity | exact Hwf].
  - destruct (addFile_returns E file this Hwf) as [this1 [Hadd Hwf1]].
    destruct (IH this1 Hwf1) as [this2 [Hrest Hwf2]].
    exists this2. split; [|exact Hwf2].
    unfold bind. rewrite Hadd. exact Hrest.
Qed.

(** Whatever the batch, [handleFiles] returns, and every entry of
    [files] still has its object. *)
Lemma handleFiles_returns (E : Env) (fileList : option FileList) (this : SlFileDropzone) :
  well_formed this ->
  exists this', handleFiles E fileList this = Normal tt this' /\ well_formed this'.
Proof.
  intros Hwf. unfold handleFiles.
  destruct fileList as [fileList|]; [|exists this; split; [reflexivity | exact Hwf]].
  destruct (length fileList =? 0)%nat; [exists this; split; [reflexivity | exact Hwf]|].
  unfold bind at 1. unfold set_warning at 1. rewrite bind_get_this.
  destruct (negb (multiple (with_warning None this)) && (1 <? length fileList)%nat).
  - eexists. split; [reflexivity | exact Hwf].
  - rewrite bind_emit. apply forEach_addFile_returns. exact Hwf.
Qed.

Lemma well_formed_new : well_formed new_SlFileDropzone.
Proof. constructor. Qed.

(** ** Intake *)

(** C10: [handleFiles] called with [null] or with an empty list returns
    at once: the component is left as it was, so no event is dispatched,
    [files] is unchanged and [warning] keeps its value. *)
Theorem handleFiles_null_or_empty (E : Env) (this : SlFileDropzone) :
  handleFiles E None this = Normal tt this
  /\ handleFiles E (Some []) this = Normal tt this.
Proof. split; reflexivity. Qed.

(** C3, as amended: a batch of two or more files with [multiple] false
    only sets [warning] to the noMultipleFiles term.  Nothing is added
    to [files] and no event is dispatched, [sl-change] included. *)
Theorem handleFiles_batch_refused (E : Env) (this : SlFileDropzone) (fileList : FileList) :
  multiple this = false ->
  (2 <= length fileList)%nat ->
  handleFiles E (Some fileList) this
  = Normal tt (with_warning (Some (term E "noMultipleFiles")) this).
Proof.
  intros Hsingle Hlen.
  destruct fileList as [|f [|g rest]]; simpl in Hlen; try lia.
  unfold handleFiles. simpl.
  unfold bind, set_warning, get_this.
  replace (multiple (with_warning None this)) with (multiple this) by reflexivity.
  rewrite Hsingle. reflexivity.
Qed.

Lemma handleFiles_batch_refused_witness :
  handleFiles es_env (Some [a_png; b_png]) new_SlFileDropzone
  = Normal tt (with_warning (Some (term es_env "noMultipleFiles")) new_SlFileDropzone).
Proof.
  apply (handleFiles_batch_refused es_env new_SlFileDropzone [a_png; b_png]).
  - reflexivity.
  - simpl. lia.
Defined.

(** C3 as stated fails: with the default [maxFiles] of 1, dropping
    a.png and b.png together dispatches no event at all, so no
    [sl-change] carrying the batch. *)
Lemma handleFiles_batch_no_sl_change :
  exists this',
    handleFiles es_env (Some [a_png; b_png]) new_SlFileDropzone = Normal tt this'
    /\ maxFiles new_SlFileDropzone = 1
    /\ files this' = []
    /\ emitted this' = []
    /\ ~ In (sl_change [a_png; b_png]) (emitted this').
Proof.
  eexists. split; [reflexivity|]. simpl. repeat split. intros [].
Qed.

(** C2, as amended: with [maxFiles] at 1 and one object in [files], a
    batch of one new file is announced by [sl-change] and then refused
    by the capacity test of [addFile]: [files] and the objects are as
    before, and [warning] is the maxFiles term. *)
Theorem handleFiles_single_full (E : Env) (this : SlFileDropzone) (file : File.t) :
  maxFiles this = 1 ->
  length (files this) = 1%nat ->
  handleFiles E (Some [file]) this
  = Normal tt (with_warning (Some (term E "maxFiles"))
                 (with_emitted (emitted this ++ [sl_change [file]]) this)).
Proof.
  intros Hmax Hlen.
  unfold handleFiles. simpl.
  unfold bind, set_warning, get_this, emit, multiple. simpl.
  rewrite Hmax. simpl.
  unfold addFile, bind, get_this, set_warning, ret. simpl.
  rewrite Hmax, Hlen. reflexivity.
Qed.

Lemma handleFiles_single_full_witness :
  handleFiles es_env (Some [b_png]) holding_a_png
  = Normal tt (with_warning (Some (term es_env "maxFiles"))
                 (with_emitted (emitted holding_a_png ++ [sl_change [b_png]]) holding_a_png)).
Proof.
  apply (handleFiles_single_full es_env holding_a_png b_png); reflexivity.
Defined.

(** C2 as stated fails: with the default [maxFiles] of 1, after a.png
    and then b.png are dropped, [files] still has one entry, and it is
    the object of a.png, not one of b.png. *)
Lemma second_drop_keeps_first_file :
  exists this',
    (handleFiles es_env (Some [a_png]) ;; handleFiles es_env (Some [b_png]))
      new_SlFileDropzone = Normal tt this'
    /\ length (files this') = 1%nat
    /\ listed_files this' = [Some a_png]
    /\ listed_files this' <> [Some b_png].
Proof.
  exists (run (handleFiles es_env (Some [a_png]) ;; handleFiles es_env (Some [b_png]))
            new_SlFileDropzone).
  split; [vm_compute; reflexivity|].
  split; [vm_compute; reflexivity|].
  split; [vm_compute; reflexivity|].
  vm_compute. discriminate.
Qed.

Lemma url_fold_setRequestHeader (hs : list (string * string)) (x : Xhr.t) :
  Xhr.url (fold_left (fun x entry => Xhr.setRequestHeader (fst entry) (snd entry) x) hs x)
  = Xhr.url x.
Proof.
  revert x. induction hs as [|entry hs IH]; intros x; simpl; [reflexivity|].
  rewrite IH. reflexivity.
Qed.

Lemma url_upload_request (this : SlFileDropzone) (file : File.t) (u : string) :
  Xhr.url (upload_request this file u) = Some u.
Proof.
  unfold upload_request.
  destruct (binaryBody this), (withCredentials this), (headers this); simpl;
    rewrite ?url_fold_setRequestHeader; reflexivity.
Qed.

(** C1, what the code does: [addFile] starts the upload of every file it
    lists when [url] is set, whatever validation said.  A file that
    fails the type or the size test is listed with [accepted] false and
    its upload is started all the same: [loading] is true and the
    request has been sent. *)
Theorem addFile_uploads_rejected_file (E : Env) (file : File.t) (this : SlFileDropzone)
    (u : string) :
  full this = false ->
  url this = Some u ->
  truthy_string (Some u) = true ->
  hasValidFileType E file (accept this) && hasValidFileSize E file (maxFileSize this) = false ->
  exists this' info x,
    addFile E file this = Normal tt this'
    /\ In (length (heap this)) (files this')
    /\ heap this' !! length (heap this) = Some info
    /\ FileInfo.file info = file
    /\ FileInfo.accepted info = Some false
    /\ FileInfo.loading info = Some true
    /\ FileInfo.xhr info = Some x
    /\ Xhr.url x = Some u
    /\ Xhr.sent x <> None.
Proof.
  intros Hfree Hurl Htruthy Hrejected.
  pose proof (addFile_not_full E file this Hfree) as Hadd. cbv zeta in Hadd.
  rewrite Hurl, Htruthy in Hadd.
  eexists. exists (uploading this u (validated E this file)). eexists.
  split; [exact Hadd|].
  split.
  { simpl. destruct (multiple this); [apply in_or_app; right|]; left; reflexivity. }
  split.
  { apply heap_store_eq with (i := validated E this file).
    simpl. apply heap_alloc_lookup. }
  assert (Hfile : FileInfo.file (validated E this file) = file).
  { unfold validated.
    destruct (negb (hasValidFileType E file (accept this)));
      [| destruct (negb (hasValidFileSize E file (maxFileSize this)))]; reflexivity. }
  assert (Hacc : FileInfo.accepted (validated E this file) = Some false).
  { unfold validated.
    destruct (hasValidFileType E file (accept this));
      [destruct (hasValidFileSize E file (maxFileSize this))|];
      simpl in *; try reflexivity. discriminate. }
  split; [exact Hfile|]. split; [exact Hacc|]. split; [reflexivity|].
  split; [reflexivity|].
  split; [apply url_upload_request|].
  unfold upload_request. destruct (binaryBody this); simpl; discriminate.
Qed.

Lemma addFile_uploads_rejected_file_witness :
  exists this' info x,
    addFile es_env b_txt images_only_dropzone = Normal tt this'
    /\ In (length (heap images_only_dropzone)) (files this')
    /\ heap this' !! length (heap images_only_dropzone) = Some info
    /\ FileInfo.file info = b_txt
    /\ FileInfo.accepted info = Some false
    /\ FileInfo.loading info = Some true
    /\ FileInfo.xhr info = Some x
    /\ Xhr.url x = Some "https://example.org/upload"
    /\ Xhr.sent x <> None.
Proof.
  apply (addFile_uploads_rejected_file es_env b_txt images_only_dropzone
           "https://example.org/upload"); reflexivity.
Defined.

(** ** Removal *)

Lemma at_index_None {A} (l : list A) (index : Z) :
  (index < 0 \/ Z.of_nat (length l) <= index)%Z -> at_index l index = None.
Proof.
  intros Hout. unfold at_index.
  destruct (index <? 0)%Z eqn:Hneg; [reflexivity|].
  apply Z.ltb_ge in Hneg. apply lookup_ge_None. lia.
Qed.

(** C4, what the code does: for an index out of range, [this.files[index]]
    is [undefined] and reading its [loading] throws a [TypeError].  The
    component is left as it was and nothing is dispatched, but the call
    fails. *)
Theorem handleFileRemove_out_of_range (E : Env) (index : Z) (this : SlFileDropzone) :
  (index < 0 \/ Z.of_nat (length (files this)) <= index)%Z ->
  handleFileRemove E index this = Throw TypeError this.
Proof.
  intros Hout. unfold handleFileRemove. rewrite bind_get_this.
  rewrite at_index_None by exact Hout. reflexivity.
Qed.

(** Index 0 once more, after the only entry was removed. *)
Lemma handleFileRemove_out_of_range_witness :
  files holding_a_png = [0%nat]
  /\ handleFileRemove es_env 0 holding_a_png = Normal tt emptied_again
  /\ handleFileRemove es_env 0 emptied_again = Throw TypeError emptied_again.
Proof.
  split; [reflexivity|]. split; [reflexivity|].
  apply (handleFileRemove_out_of_range es_env 0 emptied_again).
  right. simpl. lia.
Defined.

Lemma filter_from_past {A} (l : list A) (k index : Z) :
  (index < k)%Z -> filter_from (fun _ i => negb (i =? index)%Z) k l = l.
Proof.
  revert k. induction l as [|x l IH]; intros k Hk; simpl; [reflexivity|].
  destruct (k =? index)%Z eqn:Heq; [apply Z.eqb_eq in Heq; lia|].
  simpl. rewrite IH by lia. reflexivity.
Qed.

Lemma filter_from_delete {A} (l : list A) (k index : Z) :
  (k <= index)%Z ->
  filter_from (fun _ i => negb (i =? index)%Z) k l = delete (Z.to_nat (index - k)) l.
Proof.
  revert k. induction l as [|x l IH]; intros k Hk; simpl; [reflexivity|].
  destruct (k =? index)%Z eqn:Heq; simpl.
  - apply Z.eqb_eq in Heq. subst k. rewrite Z.sub_diag. simpl.
    apply filter_from_past. lia.
  - apply Z.eqb_neq in Heq.
    replace (Z.to_nat (index - k)) with (S (Z.to_nat (index - (k + 1)))) by lia.
    simpl. rewrite IH by lia. reflexivity.
Qed.

Lemma filter_indexed_delete {A} (l : list A) (index : Z) :
  (0 <= index)%Z ->
  filter_indexed (fun _ i => negb (i =? index)%Z) l = delete (Z.to_nat index) l.
Proof.
  intros Hpos. unfold filter_indexed. rewrite filter_from_delete by exact Hpos.
  rewrite Z.sub_0_r. reflexivity.
Qed.

Lemma at_index_Some {A} (l : list A) (index : Z) (x : A) :
  at_index l index = Some x ->
  (0 <= index)%Z /\ l !! Z.to_nat index = Some x.
Proof.
  unfold at_index. destruct (index <? 0)%Z eqn:Hneg; [discriminate|].
  apply Z.ltb_ge in Hneg. intros Hx. split; [exact Hneg | exact Hx].
Qed.


(** C8: for an index in range, [handleFileRemove] returns.  Where the
    object is loading, [abort()] is called on its request if it has one,
    and the last event dispatched is [sl-abort] with the object, before
    it only the [sl-abort] of the upload's own abort handler if the
    browser ran it, and no [sl-remove]; where it is not loading, the one
    event is [sl-remove] with the object and no object changes.  Either
    way the entry at [index] is gone from [files] afterwards. *)
Theorem handleFileRemove_in_range (E : Env) (index : Z) (this : SlFileDropzone)
    (fileInfo : ref) (info : FileInfo.t) :
  at_index (files this) index = Some fileInfo ->
  heap this !! fileInfo = Some info ->
  exists this',
    handleFileRemove E index this = Normal tt this'
    /\ files this' = delete (Z.to_nat index) (files this)
    /\ if truthy_bool (FileInfo.loading info) then
         FileInfo.xhr <$> heap this' !! fileInfo = Some (Xhr.abort <$> FileInfo.xhr info)
         /\ emitted this'
            = emitted this ++ abort_reported E info ++ [sl_abort (AbortFile fileInfo)]
       else
         heap this' = heap this
         /\ emitted this' = emitted this ++ [sl_remove fileInfo].
Proof.
  intros Hat Hinfo.
  destruct (at_index_Some _ _ _ Hat) as [Hpos _].
  unfold handleFileRemove. rewrite bind_get_this, Hat.
  erewrite bind_deref by exact Hinfo.
  destruct (truthy_bool (FileInfo.loading info)) eqn:Hloading.
  - unfold xhr_abort, abort_reported.
    unfold bind at 1. unfold bind at 1. 
    erewrite bind_deref by exact Hinfo.
    destruct (FileInfo.xhr info) as [x|] eqn:Hxhr.
    + erewrite bind_update by exact Hinfo.
      destruct (upload_abort E) as [event|].
      * unfold onTransferAbort. run_updates.
        eexists. split; [reflexivity|]. simpl.
        split; [apply filter_indexed_delete; exact Hpos|].
        split; [|rewrite <- app_assoc; reflexivity].
        rewrite list_lookup_insert_eq by (eapply lookup_lt_Some; exact Hinfo).
        simpl. rewrite Hxhr. reflexivity.
      * eexists. split; [reflexivity|]. simpl.
        split; [apply filter_indexed_delete; exact Hpos|].
        split; [|reflexivity].
        rewrite list_lookup_insert_eq by (eapply lookup_lt_Some; exact Hinfo).
        simpl. rewrite Hxhr. reflexivity.
    + eexists. split; [reflexivity|]. simpl.
      split; [apply filter_indexed_delete; exact Hpos|].
      split; [|reflexivity].
      rewrite Hinfo. simpl. rewrite Hxhr. reflexivity.
  - eexists. split; [reflexivity|]. simpl.
    split; [apply filter_indexed_delete; exact Hpos|].
    split; reflexivity.
Qed.

Lemma handleFileRemove_in_range_witness :
  exists this',
    handleFileRemove es_env 0 uploading_a_png = Normal tt this'
    /\ files this' = delete (Z.to_nat 0) (files uploading_a_png)
    /\ if truthy_bool (FileInfo.loading a_png_uploading) then
         FileInfo.xhr <$> heap this' !! 0%nat
         = Some (Xhr.abort <$> FileInfo.xhr a_png_uploading)
         /\ emitted this'
            = emitted uploading_a_png ++ abort_reported es_env a_png_uploading
              ++ [sl_abort (AbortFile 0%nat)]
       else
         heap this' = heap uploading_a_png
         /\ emitted this' = emitted uploading_a_png ++ [sl_remove 0%nat].
Proof.
  apply (handleFileRemove_in_range es_env 0 uploading_a_png 0%nat a_png_uploading);
    reflexivity.
Defined.

(** ** Callbacks of a transfer *)

Lemma updateTransferProgress_eq (event : ProgressEvent) (fileInfo : ref)
    (this : SlFileDropzone) (info : FileInfo.t) :
  heap this !! fileInfo = Some info ->
  updateTransferProgress event fileInfo this
  = if lengthComputable event then
      Normal tt
        (store fileInfo
           (FileInfo.set_progress (percent (loaded event) (total event)) info) this)
    else Normal tt this.
Proof.
  intros Hinfo. unfold updateTransferProgress.
  destruct (lengthComputable event); [|reflexivity].
  run_updates. reflexivity.
Qed.

Lemma onTransferComplete_eq (E : Env) (event : ProgressEvent) (httpRequest : XhrResult)
    (fileInfo : ref) (this : SlFileDropzone) (info : FileInfo.t) :
  heap this !! fileInfo = Some info ->
  onTransferComplete E event httpRequest fileInfo this
  = if (status httpRequest =? 200)%Z then
      Normal tt
        (with_emitted (emitted this ++ [sl_load (response httpRequest)])
           (store fileInfo (FileInfo.set_loading false info) this))
    else
      Normal tt
        (with_emitted (emitted this ++ [sl_error event])
           (store fileInfo
              (FileInfo.set_accepted false
                 (FileInfo.set_warning (term E "serverError")
                    (FileInfo.set_loading false info))) this)).
Proof.
  intros Hinfo. unfold onTransferComplete. run_updates.
  destruct (status httpRequest =? 200)%Z.
  - reflexivity.
  - unfold bind at 1. run_updates. reflexivity.
Qed.

Lemma onTransferError_eq (E : Env) (event : ProgressEvent) (fileInfo : ref)
    (this : SlFileDropzone) (info : FileInfo.t) :
  heap this !! fileInfo = Some info ->
  onTransferError E event fileInfo this
  = Normal tt
      (with_emitted (emitted this ++ [sl_error event])
         (store fileInfo
            (FileInfo.set_accepted false
               (FileInfo.set_warning (term E "transferError")
                  (FileInfo.set_loading false info))) this)).
Proof. intros Hinfo. unfold onTransferError. run_updates. reflexivity. Qed.

Lemma onTransferAbort_eq (E : Env) (event : ProgressEvent) (fileInfo : ref)
    (this : SlFileDropzone) (info : FileInfo.t) :
  heap this !! fileInfo = Some info ->
  onTransferAbort E event fileInfo this
  = Normal tt
      (with_emitted (emitted this ++ [sl_abort (AbortEvent event)])
         (store fileInfo
            (FileInfo.set_accepted false
               (FileInfo.set_warning (term E "transferAbort")
                  (FileInfo.set_loading false info))) this)).
Proof. intros Hinfo. unfold onTransferAbort. run_updates. reflexivity. Qed.

Lemma field_after_stored {B} (field : FileInfo.t -> B) (r : ref) (x i : FileInfo.t)
    (e : list CustomEvent) (this : SlFileDropzone) :
  heap this !! r = Some i ->
  field_after field r (Normal tt (with_emitted e (store r x this))) = Some (field x).
Proof.
  intros Hr. unfold field_after. simpl.
  rewrite list_lookup_insert_eq by (eapply lookup_lt_Some; exact Hr). reflexivity.
Qed.

(** C9: the completion callback returns and touches one object only.
    With status 200 the object stops loading, its warning and verdict
    stay, and the one event dispatched is [sl-load] with the response;
    with any other status it stops loading, its warning is the
    serverError term, [accepted] is false, and the one event is
    [sl-error].  Either way the request of the object is the one it had
    and no object is created: nothing is sent again. *)
Theorem onTransferComplete_outcome (E : Env) (event : ProgressEvent)
    (httpRequest : XhrResult) (fileInfo : ref) (this : SlFileDropzone)
    (info : FileInfo.t) :
  heap this !! fileInfo = Some info ->
  exists this' info',
    onTransferComplete E event httpRequest fileInfo this = Normal tt this'
    /\ heap this' !! fileInfo = Some info'
    /\ (forall r, r <> fileInfo -> heap this' !! r = heap this !! r)
    /\ length (heap this') = length (heap this)
    /\ files this' = files this
    /\ FileInfo.loading info' = Some false
    /\ FileInfo.xhr info' = FileInfo.xhr info
    /\ if (status httpRequest =? 200)%Z then
         emitted this' = emitted this ++ [sl_load (response httpRequest)]
         /\ FileInfo.warning info' = FileInfo.warning info
         /\ FileInfo.accepted info' = FileInfo.accepted info
       else
         emitted this' = emitted this ++ [sl_error event]
         /\ FileInfo.warning info' = Some (term E "serverError")
         /\ FileInfo.accepted info' = Some false.
Proof.
  intros Hinfo.
  rewrite (onTransferComplete_eq E event httpRequest fileInfo this info Hinfo).
  destruct (status httpRequest =? 200)%Z;
    eexists; eexists; (split; [reflexivity|]);
    (split; [simpl; apply list_lookup_insert_eq; eapply lookup_lt_Some; exact Hinfo|]);
    (split; [intros r Hne; simpl; apply list_lookup_insert_ne; congruence|]);
    (split; [simpl; apply length_insert|]);
    repeat split.
Qed.

Lemma onTransferComplete_outcome_witness :
  exists this' info',
    onTransferComplete es_env abort_event {| status := 500; response := "" |} 0%nat
      uploading_a_png = Normal tt this'
    /\ heap this' !! 0%nat = Some info'
    /\ (forall r, r <> 0%nat -> heap this' !! r = heap uploading_a_png !! r)
    /\ length (heap this') = length (heap uploading_a_png)
    /\ files this' = files uploading_a_png
    /\ FileInfo.loading info' = Some false
    /\ FileInfo.xhr info' = FileInfo.xhr a_png_uploading
    /\ emitted this' = emitted uploading_a_png ++ [sl_error abort_event]
    /\ FileInfo.warning info' = Some (term es_env "serverError")
    /\ FileInfo.accepted info' = Some false.
Proof.
  apply (onTransferComplete_outcome es_env abort_event {| status := 500; response := "" |}
           0%nat uploading_a_png a_png_uploading).
  reflexivity.
Defined.

(** C5, as amended: validation gives [accepted] its first value; a
    progress callback and a completion with status 200 leave it as it
    is; a completion with another status, a transport error and an
    abort each set it to false. *)
Theorem accepted_after_callbacks (E : Env) (event : ProgressEvent)
    (httpRequest : XhrResult) (fileInfo : ref) (this : SlFileDropzone)
    (info : FileInfo.t) (file : File.t) :
  heap this !! fileInfo = Some info ->
  FileInfo.accepted (validated E this file)
  = Some (hasValidFileType E file (accept this)
          && hasValidFileSize E file (maxFileSize this))
  /\ field_after FileInfo.accepted fileInfo (updateTransferProgress event fileInfo this)
     = Some (FileInfo.accepted info)
  /\ field_after FileInfo.accepted fileInfo
       (onTransferComplete E event httpRequest fileInfo this)
     = Some (if (status httpRequest =? 200)%Z then FileInfo.accepted info else Some false)
  /\ field_after FileInfo.accepted fileInfo (onTransferError E event fileInfo this)
     = Some (Some false)
  /\ field_after FileInfo.accepted fileInfo (onTransferAbort E event fileInfo this)
     = Some (Some false).
Proof.
  intros Hinfo. split.
  { unfold validated.
    destruct (hasValidFileType E file (accept this));
      [destruct (hasValidFileSize E file (maxFileSize this))|]; reflexivity. }
  split.
  { rewrite (updateTransferProgress_eq event fileInfo this info Hinfo).
    destruct (lengthComputable event).
    - unfold field_after. simpl.
      rewrite list_lookup_insert_eq by (eapply lookup_lt_Some; exact Hinfo). reflexivity.
    - unfold field_after. simpl. rewrite Hinfo. reflexivity. }
  split.
  { rewrite (onTransferComplete_eq E event httpRequest fileInfo this info Hinfo).
    destruct (status httpRequest =? 200)%Z;
      erewrite field_after_stored by exact Hinfo; reflexivity. }
  split.
  - rewrite (onTransferError_eq E event fileInfo this info Hinfo).
    erewrite field_after_stored by exact Hinfo. reflexivity.
  - rewrite (onTransferAbort_eq E event fileInfo this info Hinfo).
    erewrite field_after_stored by exact Hinfo. reflexivity.
Qed.

Lemma accepted_after_callbacks_witness :
  field_after FileInfo.accepted 0%nat (onTransferAbort es_env abort_event 0%nat uploading_a_png)
  = Some (Some false).
Proof.
  apply (accepted_after_callbacks es_env abort_event {| status := 200; response := "ok" |}
           0%nat uploading_a_png a_png_uploading a_png).
  reflexivity.
Defined.

(** C5 as stated fails: a.png is accepted at intake, and after a
    transport error of its upload [accepted] is false. *)
Lemma accepted_lost_on_transfer_error :
  FileInfo.accepted <$> heap uploading_a_png !! 0%nat = Some (Some true)
  /\ field_after FileInfo.accepted 0%nat
       (onTransferError es_env abort_event 0%nat uploading_a_png)
     = Some (Some false).
Proof. split; vm_compute; reflexivity. Qed.

(** C7, as amended: completion with any status, transport error and
    abort each return with [loading] false on the object, in the same
    step as the rest of the change, and leave its [xhr] as it was: the
    request is never taken off the object. *)
Theorem terminal_callbacks_keep_xhr (E : Env) (event : ProgressEvent)
    (httpRequest : XhrResult) (fileInfo : ref) (this : SlFileDropzone)
    (info : FileInfo.t) :
  heap this !! fileInfo = Some info ->
  forall callback,
    In callback [onTransferComplete E event httpRequest fileInfo;
                 onTransferError E event fileInfo;
                 onTransferAbort E event fileInfo] ->
    exists this' info',
      callback this = Normal tt this'
      /\ heap this' !! fileInfo = Some info'
      /\ FileInfo.loading info' = Some false
      /\ FileInfo.xhr info' = FileInfo.xhr info.
Proof.
  intros Hinfo callback Hin.
  assert (Hstored : forall x e,
    heap (with_emitted e (store fileInfo x this)) !! fileInfo = Some x).
  { intros x e. simpl. apply list_lookup_insert_eq. eapply lookup_lt_Some. exact Hinfo. }
  simpl in Hin. destruct Hin as [<- | [<- | [<- | []]]].
  - rewrite (onTransferComplete_eq E event httpRequest fileInfo this info Hinfo).
    destruct (status httpRequest =? 200)%Z;
      eexists; eexists; (split; [reflexivity|]); (split; [apply Hstored|]);
      split; reflexivity.
  - rewrite (onTransferError_eq E event fileInfo this info Hinfo).
    eexists; eexists; (split; [reflexivity|]); (split; [apply Hstored|]);
      split; reflexivity.
  - rewrite (onTransferAbort_eq E event fileInfo this info Hinfo).
    eexists; eexists; (split; [reflexivity|]); (split; [apply Hstored|]);
      split; reflexivity.
Qed.

Lemma terminal_callbacks_keep_xhr_witness :
  exists this' info',
    onTransferError es_env abort_event 0%nat uploading_a_png = Normal tt this'
    /\ heap this' !! 0%nat = Some info'
    /\ FileInfo.loading info' = Some false
    /\ FileInfo.xhr info' = FileInfo.xhr a_png_uploading.
Proof.
  apply (terminal_callbacks_keep_xhr es_env abort_event {| status := 200; response := "ok" |}
           0%nat uploading_a_png a_png_uploading).
  - reflexivity.
  - simpl. right. left. reflexivity.
Defined.

(** C7 as stated fails: once the upload of a.png has completed with
    status 200 its object is not loading and still holds the request. *)
Lemma completed_object_holds_xhr :
  exists this' info',
    onTransferComplete es_env abort_event {| status := 200; response := "ok" |} 0%nat
      uploading_a_png = Normal tt this'
    /\ heap this' !! 0%nat = Some info'
    /\ FileInfo.loading info' = Some false
    /\ FileInfo.xhr info' <> None
    /\ emitted this' = [sl_change [a_png]; sl_load "ok"].
Proof.
  exists (run (onTransferComplete es_env abort_event {| status := 200; response := "ok" |}
                 0%nat) uploading_a_png).
  exists (FileInfo.set_loading false a_png_uploading).
  split; [vm_compute; reflexivity|].
  split; [vm_compute; reflexivity|].
  split; [vm_compute; reflexivity|].
  split; [vm_compute; discriminate | vm_compute; reflexivity].
Qed.

(** ** Progress *)

Lemma Qdiv_le_cross (a b c d : Q) :
  (0 < b)%Q -> (0 < d)%Q -> (a * d <= c * b)%Q -> (a / b <= c / d)%Q.
Proof.
  intros Hb Hd Hcross.
  apply Qle_shift_div_l; [exact Hd|].
  assert (Hswap : (a / b * d == (a * d) / b)%Q).
  { field. intros Hz. rewrite Hz in Hb. exact (Qlt_irrefl 0 Hb). }
  rewrite Hswap.
  apply Qle_shift_div_r; [exact Hb | exact Hcross].
Qed.

Lemma inject_N_pos (n : N) : (0 < n)%N -> (0 < inject_Z (Z.of_N n))%Q.
Proof. intros Hn. rewrite <- (Zlt_Qlt 0). lia. Qed.

Lemma percent_finite (l t : N) :
  (0 < t)%N ->
  percent l t = Finite (Qred (inject_Z (Z.of_N l) / inject_Z (Z.of_N t) * 100)%Q).
Proof.
  intros Ht. unfold percent.
  destruct (t =? 0)%N eqn:Hz; [apply N.eqb_eq in Hz; lia | reflexivity].
Qed.

Lemma percent_in_range (l t : N) :
  (0 < t)%N -> (l <= t)%N -> in_range (percent l t).
Proof.
  intros Ht Hle. rewrite percent_finite by exact Ht. simpl.
  rewrite Qred_correct.
  pose proof (inject_N_pos t Ht) as Hpos.
  split.
  - apply Qmult_le_0_compat; [|discriminate].
    apply Qle_shift_div_l; [exact Hpos|].
    rewrite Qmult_0_l. rewrite <- (Zle_Qle 0). lia.
  - apply Qle_trans with (1 * 100)%Q; [|discriminate].
    apply Qmult_le_compat_r; [|discriminate].
    apply Qle_shift_div_r; [exact Hpos|].
    rewrite Qmult_1_l. rewrite <- Zle_Qle. lia.
Qed.

Lemma percent_le (l0 t0 l t : N) :
  (0 < t0)%N -> (0 < t)%N -> (l0 * t <= l * t0)%N ->
  number_le (percent l0 t0) (percent l t).
Proof.
  intros Ht0 Ht Hcross. rewrite !percent_finite by assumption. simpl.
  rewrite !Qred_correct.
  apply Qmult_le_compat_r; [|discriminate].
  apply Qdiv_le_cross; try (apply inject_N_pos; assumption).
  rewrite <- !inject_Z_mult. rewrite <- Zle_Qle. lia.
Qed.

Lemma number_le_refl (l t : N) : (0 < t)%N -> number_le (percent l t) (percent l t).
Proof. intros Ht. rewrite percent_finite by exact Ht. simpl. apply Qle_refl. Qed.

Lemma progress_trace_behaves (events : list ProgressEvent) (fileInfo : ref) :
  forall (this : SlFileDropzone) (info : FileInfo.t) (l0 t0 : N),
    heap this !! fileInfo = Some info ->
    FileInfo.progress info = Some (percent l0 t0) ->
    (0 < t0)%N -> (l0 <= t0)%N ->
    reports_behave l0 t0 events = true ->
    length (progress_trace events fileInfo this) = length events
    /\ Forall (fun p => exists n, p = Some n /\ in_range n)
         (progress_trace events fileInfo this)
    /\ nondecreasing_from (percent l0 t0) (progress_trace events fileInfo this).
Proof.
  induction events as [|event events IH]; intros this info l0 t0 Hinfo Hprog Ht0 Hl0 Hbeh.
  - simpl. repeat split. constructor.
  - simpl. rewrite (updateTransferProgress_eq event fileInfo this info Hinfo).
    simpl in Hbeh. destruct (lengthComputable event).
    + apply andb_prop in Hbeh as [Hbeh Hrest].
      apply andb_prop in Hbeh as [Hbeh Hcross].
      apply andb_prop in Hbeh as [Htot Hload].
      apply N.ltb_lt in Htot. apply N.leb_le in Hload. apply N.leb_le in Hcross.
      erewrite heap_store_eq by exact Hinfo. simpl.
      destruct (IH (store fileInfo
                      (FileInfo.set_progress (percent (loaded event) (total event)) info)
                      this)
                   (FileInfo.set_progress (percent (loaded event) (total event)) info)
                   (loaded event) (total event))
        as [Hlen [Hall Hmono]];
        [eapply heap_store_eq; exact Hinfo | reflexivity | exact Htot | exact Hload
        | exact Hrest |].
      split; [rewrite Hlen; reflexivity|].
      split.
      * constructor; [|exact Hall].
        eexists. split; [reflexivity|]. apply percent_in_range; assumption.
      * split; [apply percent_le; assumption | exact Hmono].
    + rewrite Hinfo. simpl. rewrite Hprog.
      destruct (IH this info l0 t0 Hinfo Hprog Ht0 Hl0 Hbeh) as [Hlen [Hall Hmono]].
      split; [rewrite Hlen; reflexivity|].
      split.
      * constructor; [|exact Hall].
        eexists. split; [reflexivity|]. apply percent_in_range; assumption.
      * split; [apply number_le_refl; exact Ht0 | exact Hmono].
Qed.

(** C6, as amended: a progress callback returns; when the length is not
    computable the component is left as it was, and otherwise [progress]
    becomes [(loaded / total) * 100], as reported, neither clamped nor
    compared with the value before.  So for a transfer just started
    ([progress] 0) and a run of reports in which every computable
    report has [loaded] at most a positive [total] and a fraction no
    smaller than the one before, every stored value is within 0 and 100
    and no stored value is below the one before it. *)
Theorem updateTransferProgress_stores_report (events : list ProgressEvent)
    (fileInfo : ref) (this : SlFileDropzone) (info : FileInfo.t) :
  heap this !! fileInfo = Some info ->
  (forall event,
     updateTransferProgress event fileInfo this
     = if lengthComputable event then
         Normal tt
           (store fileInfo
              (FileInfo.set_progress (percent (loaded event) (total event)) info) this)
       else Normal tt this)
  /\ (FileInfo.progress info = Some (Finite 0) ->
      reports_behave 0 1 events = true ->
      length (progress_trace events fileInfo this) = length events
      /\ Forall (fun p => exists n, p = Some n /\ in_range n)
           (progress_trace events fileInfo this)
      /\ nondecreasing_from (Finite 0) (progress_trace events fileInfo this)).
Proof.
  intros Hinfo. split.
  - intros event. apply updateTransferProgress_eq. exact Hinfo.
  - intros Hstart Hbeh.
    apply (progress_trace_behaves events fileInfo this info 0 1 Hinfo Hstart);
      [reflexivity | discriminate | exact Hbeh].
Qed.

Lemma updateTransferProgress_stores_report_witness :
  let events :=
    [ {| lengthComputable := true; loaded := 50; total := 100 |};
      {| lengthComputable := false; loaded := 0; total := 0 |};
      {| lengthComputable := true; loaded := 100; total := 100 |} ] in
  length (progress_trace events 0%nat uploading_a_png) = length events
  /\ Forall (fun p => exists n, p = Some n /\ in_range n)
       (progress_trace events 0%nat uploading_a_png)
  /\ nondecreasing_from (Finite 0) (progress_trace events 0%nat uploading_a_png).
Proof.
  intros events.
  apply (updateTransferProgress_stores_report events 0%nat uploading_a_png a_png_uploading);
    reflexivity.
Defined.

(** C6 as stated fails: nothing clamps and nothing compares.  A report
    of 200 of 100 stores 200, and a report of 25 of 100 after one of 50
    of 100 takes the stored value from 50 down to 25. *)
Lemma progress_unclamped_and_decreasing :
  progress_trace
    [ {| lengthComputable := true; loaded := 200; total := 100 |} ] 0%nat uploading_a_png
  = [Some (Finite (200 # 1))]
  /\ ~ in_range (Finite (200 # 1))
  /\ progress_trace
       [ {| lengthComputable := true; loaded := 50; total := 100 |};
         {| lengthComputable := true; loaded := 25; total := 100 |} ] 0%nat uploading_a_png
     = [Some (Finite (50 # 1)); Some (Finite (25 # 1))]
  /\ ~ number_le (Finite (50 # 1)) (Finite (25 # 1)).
Proof.
  split; [vm_compute; reflexivity|].
  split; [simpl; intros [_ Hle]; revert Hle; unfold Qle; simpl; lia|].
  split; [vm_compute; reflexivity|].
  simpl. unfold Qle. simpl. lia.
Qed.

(** ** Scenarios *)

(** Three files allowed, images only: a.png is accepted, b.txt is
    listed as rejected, and without a URL nothing is uploaded. *)
Example drop_image_and_text :
  exists this' a b,
    handleFiles es_env (Some [a_png; b_txt])
      (with_maxFiles 3 (with_accept "image/*" new_SlFileDropzone)) = Normal tt this'
    /\ files this' = [0%nat; 1%nat]
    /\ heap this' = [a; b]
    /\ FileInfo.accepted a = Some true /\ FileInfo.warning a = None
    /\ FileInfo.accepted b = Some false
    /\ FileInfo.warning b = Some (term es_env "fileTypeNotAccepted")
    /\ FileInfo.loading a = None /\ FileInfo.loading b = None.
Proof.
  exists (run (handleFiles es_env (Some [a_png; b_txt]))
            (with_maxFiles 3 (with_accept "image/*" new_SlFileDropzone))).
  exists (FileInfo.set_accepted true (FileInfo.new a_png)).
  exists (FileInfo.set_warning (term es_env "fileTypeNotAccepted")
            (FileInfo.set_accepted false (FileInfo.new b_txt))).
  by_evaluation.
Qed.

(** One file, a URL: the upload starts, a report of 50 of 100 stores
    50, and completion with status 200 dispatches [sl-load] with the
    response. *)
Example upload_progress_complete :
  exists this' info,
    (handleFiles es_env (Some [a_png]) ;;
     updateTransferProgress {| lengthComputable := true; loaded := 50; total := 100 |} 0%nat ;;
     onTransferComplete es_env abort_event {| status := 200; response := "ok" |} 0%nat)
      uploading_dropzone = Normal tt this'
    /\ heap this' = [info]
    /\ FileInfo.progress info = Some (Finite (50 # 1))
    /\ FileInfo.loading info = Some false
    /\ FileInfo.accepted info = Some true
    /\ emitted this' = [sl_change [a_png]; sl_load "ok"].
Proof.
  exists (run (handleFiles es_env (Some [a_png]) ;;
               updateTransferProgress
                 {| lengthComputable := true; loaded := 50; total := 100 |} 0%nat ;;
               onTransferComplete es_env abort_event
                 {| status := 200; response := "ok" |} 0%nat) uploading_dropzone).
  exists (FileInfo.set_loading false
            (FileInfo.set_progress (Finite (50 # 1)) a_png_uploading)).
  by_evaluation.
Qed.

(** Removing a.png while it uploads: the browser that reports the abort
    at once makes two [sl-abort] events, the other one. *)
Example remove_while_uploading :
  emitted (run (handleFileRemove es_env 0) uploading_a_png)
  = [sl_change [a_png]; sl_abort (AbortEvent abort_event); sl_abort (AbortFile 0%nat)]
  /\ emitted (run (handleFileRemove es_env_quiet 0) uploading_a_png)
     = [sl_change [a_png]; sl_abort (AbortFile 0%nat)]
  /\ files (run (handleFileRemove es_env 0) uploading_a_png) = [].
Proof. by_evaluation. Qed.

(** ** Shared facts about the methods *)

Lemma addFile_full (E : Env) (file : File.t) (this : SlFileDropzone) :
  full this = true ->
  addFile E file this = Normal tt (with_warning (Some (term E "maxFiles")) this).
Proof.
  intros Hfull. unfold addFile. rewrite bind_get_this.
  unfold full in Hfull. rewrite Hfull. reflexivity.
Qed.

Lemma addFile_added (E : Env) (file : File.t) (this : SlFileDropzone) :
  full this = false -> addFile E file this = Normal tt (added E file this).
Proof.
  intros Hfree. rewrite (addFile_not_full E file this Hfree). unfold added.
  destruct (url this) as [u|]; [destruct (truthy_string (Some u))|]; reflexivity.
Qed.

Lemma store_alloc (h : list FileInfo.t) (x y : FileInfo.t) :
  <[length h := y]> (h ++ [x]) = h ++ [y].
Proof. rewrite insert_app_r_alt by lia. rewrite Nat.sub_diag. reflexivity. Qed.

Lemma heap_added (E : Env) (file : File.t) (this : SlFileDropzone) :
  exists info,
    heap (added E file this) = heap this ++ [info]
    /\ (info = validated E this file
        \/ exists u, url this = Some u /\ truthy_string (Some u) = true
                     /\ info = uploading this u (validated E this file)).
Proof.
  unfold added.
  destruct (url this) as [u|] eqn:Hurl; [destruct (truthy_string (Some u)) eqn:Htruthy|].
  - exists (uploading this u (validated E this file)). split.
    + unfold store. simpl. apply store_alloc.
    + right. exists u. repeat split. exact Htruthy.
  - exists (validated E this file). split; [reflexivity | left; reflexivity].
  - exists (validated E this file). split; [reflexivity | left; reflexivity].
Qed.

Lemma files_added (E : Env) (file : File.t) (this : SlFileDropzone) :
  files (added E file this)
  = if multiple this then files this ++ [length (heap this)] else [length (heap this)].
Proof.
  unfold added.
  destruct (url this) as [u|]; [destruct (truthy_string (Some u))|]; reflexivity.
Qed.

Lemma frame_added (E : Env) (file : File.t) (this : SlFileDropzone) :
  props (added E file this) = props this
  /\ warning (added E file this) = warning this
  /\ emitted (added E file this) = emitted this.
Proof.
  unfold added.
  destruct (url this) as [u|]; [destruct (truthy_string (Some u))|]; repeat split.
Qed.

(** Whatever holds of the state, survives a refusal and survives an
    addition, holds after [addFile] for every file of a batch. *)
Lemma forEach_addFile_keeps (E : Env) (P : SlFileDropzone -> Prop) :
  (forall s, P s -> full s = true -> P (with_warning (Some (term E "maxFiles")) s)) ->
  (forall s file, P s -> full s = false -> P (added E file s)) ->
  forall fileList this,
    P this ->
    exists this', forEach fileList (addFile E) this = Normal tt this' /\ P this'.
Proof.
  intros Hrefused Hadded.
  induction fileList as [|file fileList IH]; intros this HP; simpl.
  - exists this. split; [reflexivity | exact HP].
  - unfold bind. destruct (full this) eqn:Hfull.
    + rewrite (addFile_full E file this Hfull). apply IH. apply Hrefused; assumption.
    + rewrite (addFile_added E file this Hfull). apply IH. apply Hadded; assumption.
Qed.

(** The same for a whole call of [handleFiles], which besides sets
    [warning] and dispatches [sl-change]. *)
Lemma handleFiles_keeps (E : Env) (P : SlFileDropzone -> Prop) :
  (forall s w, P s -> P (with_warning w s)) ->
  (forall s e, P s -> P (with_emitted (emitted s ++ [e]) s)) ->
  (forall s file, P s -> full s = false -> P (added E file s)) ->
  forall fileList this,
    P this ->
    exists this', handleFiles E fileList this = Normal tt this' /\ P this'.
Proof.
  intros Hwarning Hemitted Hadded fileList this HP. unfold handleFiles.
  destruct fileList as [fileList|]; [|exists this; split; [reflexivity | exact HP]].
  destruct (length fileList =? 0)%nat; [exists this; split; [reflexivity | exact HP]|].
  unfold bind at 1. unfold set_warning at 1. rewrite bind_get_this.
  destruct (negb (multiple (with_warning None this)) && (1 <? length fileList)%nat).
  - exists (with_warning (Some (term E "noMultipleFiles")) (with_warning None this)).
    split; [reflexivity|]. apply Hwarning, Hwarning. exact HP.
  - rewrite bind_emit.
    apply forEach_addFile_keeps.
    + intros s HPs _. apply Hwarning. exact HPs.
    + exact Hadded.
    + apply (Hemitted (with_warning None this)). apply Hwarning. exact HP.
Qed.

Lemma handleFileRemove_eq (E : Env) (index : Z) (this : SlFileDropzone)
    (fileInfo : ref) (info : FileInfo.t) :
  at_index (files this) index = Some fileInfo ->
  heap this !! fileInfo = Some info ->
  handleFileRemove E index this
  = Normal tt
      (with_files (delete (Z.to_nat index) (files this)) (notified E fileInfo info this)).
Proof.
  intros Hat Hinfo.
  destruct (at_index_Some _ _ _ Hat) as [Hpos _].
  unfold handleFileRemove. rewrite bind_get_this, Hat.
  erewrite bind_deref by exact Hinfo. unfold notified.
  destruct (truthy_bool (FileInfo.loading info)).
  - unfold xhr_abort.
    unfold bind at 1. unfold bind at 1.
    erewrite bind_deref by exact Hinfo.
    destruct (FileInfo.xhr info) as [x|].
    + erewrite bind_update by exact Hinfo.
      destruct (upload_abort E) as [event|].
      * unfold onTransferAbort. run_updates.
        unfold bind, requestUpdate, ret, emit, get_this, set_files. simpl.
        rewrite filter_indexed_delete by exact Hpos. reflexivity.
      * unfold bind, ret, emit, get_this, set_files. simpl.
        rewrite filter_indexed_delete by exact Hpos. reflexivity.
    + unfold bind, ret, emit, get_this, set_files. simpl.
      rewrite filter_indexed_delete by exact Hpos. reflexivity.
  - unfold bind, emit, get_this, set_files. simpl.
    rewrite filter_indexed_delete by exact Hpos. reflexivity.
Qed.

Lemma notified_frame (E : Env) (fileInfo : ref) (info : FileInfo.t) (this : SlFileDropzone) :
  heap this !! fileInfo = Some info ->
  props (notified E fileInfo info this) = props this
  /\ files (notified E fileInfo info this) = files this
  /\ warning (notified E fileInfo info this) = warning this
  /\ exists info',
       FileInfo.file info' = FileInfo.file info
       /\ heap (notified E fileInfo info this) = <[fileInfo := info']> (heap this).
Proof.
  intros Hinfo. unfold notified.
  assert (Hsame : heap this = <[fileInfo := info]> (heap this))
    by (symmetry; apply list_insert_id; exact Hinfo).
  destruct (truthy_bool (FileInfo.loading info));
    [destruct (FileInfo.xhr info) as [x|]; [destruct (upload_abort E) as [event|]|]|];
    (split; [reflexivity|]); (split; [reflexivity|]); (split; [reflexivity|]).
  - eexists. split; [|reflexivity]. reflexivity.
  - eexists. split; [|reflexivity]. reflexivity.
  - exists info. split; [reflexivity | exact Hsame].
  - exists info. split; [reflexivity | exact Hsame].
Qed.

Lemma lookup_insert_file (h : list FileInfo.t) (r r' : ref) (info x info0 : FileInfo.t) :
  h !! r = Some info ->
  FileInfo.file x = FileInfo.file info ->
  h !! r' = Some info0 ->
  exists info', <[r := x]> h !! r' = Some info' /\ FileInfo.file info' = FileInfo.file info0.
Proof.
  intros Hr Hfile Hr'. destruct (decide (r = r')) as [<-|Hne].
  - exists x. split.
    + apply list_lookup_insert_eq. eapply lookup_lt_Some. exact Hr.
    + rewrite Hfile. congruence.
  - exists info0. split; [|reflexivity].
    rewrite list_lookup_insert_ne by exact Hne. exact Hr'.
Qed.

(** What one reaction does to a consistent state: the one way to fail,
    and what every other outcome keeps. *)
Lemma react_effect (E : Env) (input : Input) (this : SlFileDropzone) :
  well_formed this ->
  expected input this ->
  (exists index,
     input = ItemHidden index
     /\ (index < 0 \/ Z.of_nat (length (files this)) <= index)%Z
     /\ react E input this = Throw TypeError this)
  \/ exists this',
       react E input this = Normal tt this'
       /\ props this' = props this
       /\ well_formed this'
       /\ (exists news, length (heap this') = length (heap this ++ news))
       /\ (forall r info, heap this !! r = Some info ->
             exists info', heap this' !! r = Some info'
                           /\ FileInfo.file info' = FileInfo.file info)
       /\ ((1 <= maxFiles this)%Z ->
           (Z.of_nat (length (files this)) <= maxFiles this)%Z ->
           (Z.of_nat (length (files this')) <= maxFiles this)%Z).
Proof.
  intros Hwf Hexp.
  (* the intake methods, through what [handleFiles] keeps *)
  assert (Hintake : forall fileList s,
    props s = props this -> well_formed s ->
    (exists news, heap s = heap this ++ news) ->
    ((1 <= maxFiles this)%Z ->
     (Z.of_nat (length (files this)) <= maxFiles this)%Z ->
     (Z.of_nat (length (files s)) <= maxFiles this)%Z) ->
    exists this',
      handleFiles E fileList s = Normal tt this'
      /\ props this' = props this
      /\ well_formed this'
      /\ (exists news, length (heap this') = length (heap this ++ news))
      /\ (forall r info, heap this !! r = Some info ->
            exists info', heap this' !! r = Some info'
                          /\ FileInfo.file info' = FileInfo.file info)
      /\ ((1 <= maxFiles this)%Z ->
          (Z.of_nat (length (files this)) <= maxFiles this)%Z ->
          (Z.of_nat (length (files this')) <= maxFiles this)%Z)).
  { intros fileList s Hprops Hwfs Hheap Hcap.
    destruct (handleFiles_keeps E
      (fun s => props s = props this /\ well_formed s
                /\ (exists news, heap s = heap this ++ news)
                /\ ((1 <= maxFiles this)%Z ->
                    (Z.of_nat (length (files this)) <= maxFiles this)%Z ->
                    (Z.of_nat (length (files s)) <= maxFiles this)%Z)))
      with (fileList := fileList) (this := s) as [this' [Hrun HP]].
    - intros s0 w HP. exact HP.
    - intros s0 e HP. exact HP.
    - intros s0 file [Hp [Hw [[news Hn] Hc]]] Hfree.
      destruct (frame_added E file s0) as [Hp' _].
      destruct (heap_added E file s0) as [info [Hh _]].
      pose proof (files_added E file s0) as Hf.
      assert (Hmax : maxFiles s0 = maxFiles this)
        by (unfold props in Hp; congruence).
      split; [congruence|]. split; [|split].
      + unfold well_formed in *. rewrite Hf, Hh, length_app. simpl.
        destruct (multiple s0).
        * apply Forall_app. split.
          -- eapply Forall_impl; [exact Hw|]. simpl. intros r Hr. lia.
          -- constructor; [lia|constructor].
        * constructor; [lia|constructor].
      + exists (news ++ [info]). rewrite Hh, Hn, app_assoc. reflexivity.
      + intros Hone Hlen. rewrite Hf.
        unfold full, truthy_number, multiple in *. rewrite Hmax in *.
        destruct (maxFiles this >? 1)%Z eqn:Hmult.
        * rewrite length_app. simpl.
          destruct (maxFiles this =? 0)%Z eqn:Hz; [apply Z.eqb_eq in Hz; lia|].
          simpl in Hfree. rewrite Z.geb_leb in Hfree. apply Z.leb_gt in Hfree. lia.
        * simpl. lia.
    - repeat split; assumption.
    - destruct HP as [Hp [Hw [[news Hn] Hc]]].
      exists this'. split; [exact Hrun|]. split; [exact Hp|]. split; [exact Hw|].
      split; [exists news; rewrite Hn; reflexivity|]. split; [|exact Hc].
      intros r info Hr. exists info. split; [|reflexivity].
      rewrite Hn. apply lookup_app_l_Some. exact Hr. }
  (* the handlers of an upload, through the object they write *)
  assert (Hhandler : forall fileInfo info x e,
    heap this !! fileInfo = Some info ->
    FileInfo.file x = FileInfo.file info ->
    let this' := with_emitted e (store fileInfo x this) in
    props this' = props this
    /\ well_formed this'
    /\ (exists news, length (heap this') = length (heap this ++ news))
    /\ (forall r info, heap this !! r = Some info ->
          exists info', heap this' !! r = Some info'
                        /\ FileInfo.file info' = FileInfo.file info)
    /\ ((1 <= maxFiles this)%Z ->
        (Z.of_nat (length (files this)) <= maxFiles this)%Z ->
        (Z.of_nat (length (files this')) <= maxFiles this)%Z)).
  { intros fileInfo info x e Hinfo Hfile this'.
    split; [reflexivity|]. split; [|split; [|split]].
    - unfold well_formed, this'. simpl. rewrite length_insert. exact Hwf.
    - exists []. unfold this'. simpl. rewrite length_insert, app_nil_r. reflexivity.
    - intros r info0 Hr. unfold this'. simpl.
      eapply lookup_insert_file; eassumption.
    - intros _ Hlen. exact Hlen. }
  destruct input as [dropped | inputFiles | index | event fileInfo
                    | event httpRequest fileInfo | event fileInfo | event fileInfo];
    simpl in Hexp; simpl.
  - (* onDrop *)
    right. unfold onDrop. rewrite bind_get_this.
    destruct dropped as [fileList|];
      [destruct (disabled this || noDrag this)|].
    + destruct (Hintake None this) as [this' H];
        [reflexivity | exact Hwf | exists []; rewrite app_nil_r; reflexivity | auto |].
      exists this'. exact H.
    + apply Hintake;
        [reflexivity | exact Hwf | exists []; rewrite app_nil_r; reflexivity | auto].
    + destruct (Hintake None this) as [this' H];
        [reflexivity | exact Hwf | exists []; rewrite app_nil_r; reflexivity | auto |].
      exists this'. exact H.
  - (* handleFileInputChange *)
    right. unfold handleFileInputChange. rewrite bind_emit.
    apply Hintake;
      [reflexivity | exact Hwf | exists []; rewrite app_nil_r; reflexivity | auto].
  - (* handleFileRemove *)
    destruct (at_index (files this) index) as [fileInfo|] eqn:Hat.
    + right.
      destruct (at_index_Some _ _ _ Hat) as [Hpos Hentry].
      assert (Hlt : (fileInfo < length (heap this))%nat).
      { unfold well_formed in Hwf. rewrite Forall_lookup in Hwf.
        exact (Hwf _ _ Hentry). }
      destruct (lookup_lt_is_Some_2 _ _ Hlt) as [info Hinfo].
      rewrite (handleFileRemove_eq E index this fileInfo info Hat Hinfo).
      destruct (notified_frame E fileInfo info this Hinfo)
        as [Hp [Hf [_ [info' [Hfile Hh]]]]].
      eexists. split; [reflexivity|].
      split; [exact Hp|]. split; [|split; [|split]].
      * unfold well_formed. cbn [with_files files heap]. rewrite Hh, length_insert.
        apply Forall_forall. intros r Hr.
        unfold well_formed in Hwf. rewrite Forall_forall in Hwf. apply Hwf.
        eapply elem_of_sublist; [exact Hr | apply sublist_delete].
      * exists []. cbn [with_files files heap].
        rewrite Hh, length_insert, app_nil_r. reflexivity.
      * intros r info0 Hr. cbn [with_files files heap]. rewrite Hh.
        eapply lookup_insert_file; eassumption.
      * intros _ Hlen. cbn [with_files files heap].
        pose proof (sublist_length _ _ (sublist_delete (files this) (Z.to_nat index))).
        lia.
    + left. exists index. split; [reflexivity|]. split.
      * unfold at_index in Hat. destruct (index <? 0)%Z eqn:Hneg.
        -- left. apply Z.ltb_lt. exact Hneg.
        -- right. apply lookup_ge_None in Hat. apply Z.ltb_ge in Hneg. lia.
      * unfold handleFileRemove. rewrite bind_get_this, Hat. reflexivity.
  - (* updateTransferProgress *)
    right. destruct (lookup_lt_is_Some_2 _ _ Hexp) as [info Hinfo].
    rewrite (updateTransferProgress_eq event fileInfo this info Hinfo).
    destruct (lengthComputable event).
    + eexists. split; [reflexivity|].
      apply (Hhandler fileInfo info _ (emitted this) Hinfo). reflexivity.
    + exists this. split; [reflexivity|].
      split; [reflexivity|]. split; [exact Hwf|].
      split; [exists []; rewrite app_nil_r; reflexivity|].
      split; [intros r i Hr; exists i; split; [exact Hr | reflexivity] | auto].
  - (* onTransferComplete *)
    right. destruct (lookup_lt_is_Some_2 _ _ Hexp) as [info Hinfo].
    rewrite (onTransferComplete_eq E event httpRequest fileInfo this info Hinfo).
    destruct (status httpRequest =? 200)%Z;
      eexists; (split; [reflexivity|]);
      apply (Hhandler fileInfo info _ _ Hinfo); reflexivity.
  - (* onTransferError *)
    right. destruct (lookup_lt_is_Some_2 _ _ Hexp) as [info Hinfo].
    rewrite (onTransferError_eq E event fileInfo this info Hinfo).
    eexists. split; [reflexivity|].
    apply (Hhandler fileInfo info _ _ Hinfo). reflexivity.
  - (* onTransferAbort *)
    right. destruct (lookup_lt_is_Some_2 _ _ Hexp) as [info Hinfo].
    rewrite (onTransferAbort_eq E event fileInfo this info Hinfo).
    eexists. split; [reflexivity|].
    apply (Hhandler fileInfo info _ _ Hinfo). reflexivity.
Qed.

(** ** What every reaction keeps *)


Lemma well_formed_uploading_a_png : well_formed uploading_a_png.
Proof. unfold well_formed. vm_compute. repeat constructor. Defined.


(** X2: no method takes an object out of the store or changes the file
    of an object: whatever the method and whether it returns or throws,
    an object that was there is there afterwards, with the same file. *)
Theorem react_keeps_objects (E : Env) (input : Input) (this : SlFileDropzone)
    (r : ref) (info : FileInfo.t) :
  well_formed this ->
  expected input this ->
  heap this !! r = Some info ->
  exists this' info',
    state_after (react E input this) = Some this'
    /\ heap this' !! r = Some info'
    /\ FileInfo.file info' = FileInfo.file info.
Proof.
  intros Hwf Hexp Hr.
  destruct (react_effect E input this Hwf Hexp)
    as [[index [_ [_ Hthrow]]] | [this' [Hrun [_ [_ [_ [Hkept _]]]]]]].
  - exists this, info. rewrite Hthrow. repeat split. exact Hr.
  - destruct (Hkept r info Hr) as [info' [Hr' Hfile]].
    exists this', info'. rewrite Hrun. repeat split; assumption.
Qed.

Lemma react_keeps_objects_witness :
  exists this' info',
    state_after (react es_env (ItemHidden 0) uploading_a_png) = Some this'
    /\ heap this' !! 0%nat = Some info'
    /\ FileInfo.file info' = FileInfo.file a_png_uploading.
Proof.
  apply (react_keeps_objects es_env (ItemHidden 0) uploading_a_png 0%nat a_png_uploading).
  - exact well_formed_uploading_a_png.
  - exact I.
  - reflexivity.
Defined.



(** ** Batches *)

Lemma file_validated (E : Env) (this : SlFileDropzone) (file : File.t) :
  FileInfo.file (validated E this file) = file.
Proof.
  unfold validated.
  destruct (negb (hasValidFileType E file (accept this)));
    [| destruct (negb (hasValidFileSize E file (maxFileSize this)))]; reflexivity.
Qed.

Lemma heap_added_file (E : Env) (file : File.t) (this : SlFileDropzone) :
  exists info,
    heap (added E file this) = heap this ++ [info] /\ FileInfo.file info = file.
Proof.
  destruct (heap_added E file this) as [info [Hheap [-> | [u [_ [_ ->]]]]]];
    eexists; (split; [exact Hheap|]); simpl; apply file_validated.
Qed.







(** Whether [handleFiles] goes on to the files of a batch: the batch
    is not empty, and holds one file or the list is multiple. *)
Lemma handleFiles_emitted (E : Env) (fileList : FileList) (this : SlFileDropzone) :
  exists this',
    handleFiles E (Some fileList) this = Normal tt this'
    /\ emitted this'
       = emitted this
         ++ (if negb (length fileList =? 0)%nat
                && (multiple this || (length fileList <=? 1)%nat)
             then [sl_change fileList] else []).
Proof.
  unfold handleFiles.
  destruct (length fileList =? 0)%nat eqn:Hempty.
  - exists this. split; [reflexivity|]. simpl. rewrite app_nil_r. reflexivity.
  - unfold bind at 1. unfold set_warning at 1. rewrite bind_get_this.
    replace (multiple (with_warning None this)) with (multiple this) by reflexivity.
    assert (Hone : (1 <? length fileList)%nat = negb (length fileList <=? 1)%nat).
    { destruct (Nat.ltb_spec 1 (length fileList)), (Nat.leb_spec (length fileList) 1);
        try reflexivity; lia. }
    rewrite Hone.
    destruct (multiple this); destruct (length fileList <=? 1)%nat; cbn [negb andb orb].
    + rewrite bind_emit.
      destruct (forEach_addFile_keeps E (fun s => emitted s = emitted this ++ [sl_change fileList]))
        with (fileList := fileList)
             (this := with_emitted (emitted (with_warning None this) ++ [sl_change fileList])
                        (with_warning None this)) as [this' [Hrun Hem]].
      * intros s Hs _. exact Hs.
      * intros s file Hs _. destruct (frame_added E file s) as [_ [_ He]]. congruence.
      * reflexivity.
      * exists this'. split; assumption.
    + rewrite bind_emit.
      destruct (forEach_addFile_keeps E (fun s => emitted s = emitted this ++ [sl_change fileList]))
        with (fileList := fileList)
             (this := with_emitted (emitted (with_warning None this) ++ [sl_change fileList])
                        (with_warning None this)) as [this' [Hrun Hem]].
      * intros s Hs _. exact Hs.
      * intros s file Hs _. destruct (frame_added E file s) as [_ [_ He]]. congruence.
      * reflexivity.
      * exists this'. split; assumption.
    + rewrite bind_emit.
      destruct (forEach_addFile_keeps E (fun s => emitted s = emitted this ++ [sl_change fileList]))
        with (fileList := fileList)
             (this := with_emitted (emitted (with_warning None this) ++ [sl_change fileList])
                        (with_warning None this)) as [this' [Hrun Hem]].
      * intros s Hs _. exact Hs.
      * intros s file Hs _. destruct (frame_added E file s) as [_ [_ He]]. congruence.
      * reflexivity.
      * exists this'. split; assumption.
    + eexists. split; [reflexivity|]. simpl. rewrite app_nil_r. reflexivity.
Qed.

(** X6: the events of intake.  [handleFiles] dispatches [sl-change]
    with the batch, once, when the batch is not empty and either holds
    one file or the list is multiple; otherwise it dispatches nothing.
    It never dispatches any other event, whatever becomes of the files
    of the batch. *)
Theorem handleFiles_dispatches (E : Env) (fileList : FileList) (this : SlFileDropzone) :
  exists this',
    handleFiles E (Some fileList) this = Normal tt this'
    /\ emitted this'
       = emitted this
         ++ (if negb (length fileList =? 0)%nat
                && (multiple this || (length fileList <=? 1)%nat)
             then [sl_change fileList] else []).
Proof. apply handleFiles_emitted. Qed.

(** X7: a batch that is not empty starts from a cleared [warning]: what
    [handleFiles] does with it does not depend on the warning a batch
    before has left. *)
Theorem handleFiles_forgets_warning (E : Env) (fileList : FileList)
    (w : option string) (this : SlFileDropzone) :
  fileList <> [] ->
  handleFiles E (Some fileList) (with_warning w this)
  = handleFiles E (Some fileList) this.
Proof.
  intros Hne. destruct fileList as [|file rest]; [congruence|].
  unfold handleFiles.
  replace (length (file :: rest) =? 0)%nat with false by reflexivity.
  unfold bind at 1 3. unfold set_warning at 1 3. reflexivity.
Qed.

Lemma handleFiles_forgets_warning_witness :
  handleFiles es_env (Some [a_png]) (with_warning (Some "old") new_SlFileDropzone)
  = handleFiles es_env (Some [a_png]) new_SlFileDropzone.
Proof.
  apply (handleFiles_forgets_warning es_env [a_png] (Some "old") new_SlFileDropzone).
  discriminate.
Defined.

(** X8: the edge values of [maxFiles].  At 0 the capacity test is off
    and the list is not multiple, so a batch of one file puts the new
    object alone in [files], whatever the list held.  Below 0 the test
    holds whatever the list holds, so the file is refused with the
    maxFiles term and nothing is created, even on an empty list. *)
Theorem handleFiles_maxFiles_edges (E : Env) (file : File.t) (this : SlFileDropzone) :
  ((maxFiles this = 0)%Z ->
   exists this' info,
     handleFiles E (Some [file]) this = Normal tt this'
     /\ files this' = [length (heap this)]
     /\ heap this' = heap this ++ [info]
     /\ FileInfo.file info = file
     /\ warning this' = None)
  /\ ((maxFiles this < 0)%Z ->
      exists this',
        handleFiles E (Some [file]) this = Normal tt this'
        /\ files this' = files this
        /\ heap this' = heap this
        /\ warning this' = Some (term E "maxFiles")).
Proof.
  split; intros Hmax.
  - unfold handleFiles. cbn [length Nat.eqb].
    unfold bind at 1. unfold set_warning at 1. rewrite bind_get_this.
    replace (multiple (with_warning None this))
      with (maxFiles this >? 1)%Z by reflexivity.
    rewrite Hmax. cbn [negb andb Z.gtb Z.compare Nat.ltb Nat.leb]. rewrite bind_emit.
    cbn [forEach]. unfold bind at 1.
    rewrite addFile_added
      by (unfold full, truthy_number; cbn [maxFiles with_emitted with_warning];
          rewrite Hmax; reflexivity).
    unfold ret.
    match goal with |- context [added E file ?s] => set (s0 := s) end.
    destruct (heap_added_file E file s0) as [info [Hheap Hfile]].
    destruct (frame_added E file s0) as [_ [Hw _]].
    pose proof (files_added E file s0) as Hf.
    replace (multiple s0) with (maxFiles this >? 1)%Z in Hf by reflexivity.
    rewrite Hmax in Hf.
    exists (added E file s0), info. repeat split; assumption.
  - unfold handleFiles. cbn [length Nat.eqb].
    unfold bind at 1. unfold set_warning at 1. rewrite bind_get_this.
    replace (multiple (with_warning None this))
      with (maxFiles this >? 1)%Z by reflexivity.
    replace (maxFiles this >? 1)%Z with false
      by (symmetry; rewrite Z.gtb_ltb; apply Z.ltb_ge; lia).
    cbn [negb andb Nat.ltb Nat.leb]. rewrite bind_emit.
    cbn [forEach]. unfold bind at 1.
    rewrite addFile_full.
    + eexists. split; [reflexivity|]. repeat split.
    + unfold full, truthy_number. cbn [maxFiles files with_emitted with_warning].
      replace (maxFiles this =? 0)%Z with false by (symmetry; apply Z.eqb_neq; lia).
      cbn [negb andb]. rewrite Z.geb_leb. apply Z.leb_le. lia.
Qed.

Lemma handleFiles_maxFiles_edges_witness :
  (exists this' info,
     handleFiles es_env (Some [b_png]) (with_maxFiles 0 holding_a_png) = Normal tt this'
     /\ files this' = [length (heap (with_maxFiles 0 holding_a_png))]
     /\ heap this' = heap (with_maxFiles 0 holding_a_png) ++ [info]
     /\ FileInfo.file info = b_png
     /\ warning this' = None)
  /\ (exists this',
        handleFiles es_env (Some [b_png]) (with_maxFiles (-1) new_SlFileDropzone)
        = Normal tt this'
        /\ files this' = files (with_maxFiles (-1) new_SlFileDropzone)
        /\ heap this' = heap (with_maxFiles (-1) new_SlFileDropzone)
        /\ warning this' = Some (term es_env "maxFiles")).
Proof.
  split.
  - apply (handleFiles_maxFiles_edges es_env b_png (with_maxFiles 0 holding_a_png)).
    reflexivity.
  - apply (handleFiles_maxFiles_edges es_env b_png (with_maxFiles (-1) new_SlFileDropzone)).
    reflexivity.
Defined.

(** X9: the verdict of [addFile] on a file it lists.  [accepted] is true
    when the file passes both tests and false otherwise; the type test
    comes first, so a file that fails it carries the
    fileTypeNotAccepted term whatever its size, a file that passes it
    and fails the size test carries the fileSizeExceeded term, and a
    file that passes both carries no warning. *)
Theorem addFile_verdict (E : Env) (file : File.t) (this : SlFileDropzone) :
  full this = false ->
  exists this' info,
    addFile E file this = Normal tt this'
    /\ heap this' = heap this ++ [info]
    /\ FileInfo.file info = file
    /\ FileInfo.accepted info
       = Some (hasValidFileType E file (accept this)
               && hasValidFileSize E file (maxFileSize this))
    /\ FileInfo.warning info
       = if negb (hasValidFileType E file (accept this)) then
           Some (term E "fileTypeNotAccepted")
         else if negb (hasValidFileSize E file (maxFileSize this)) then
           Some (term E "fileSizeExceeded")
         else None.
Proof.
  intros Hfree. rewrite (addFile_added E file this Hfree).
  assert (Hverdict :
    FileInfo.file (validated E this file) = file
    /\ FileInfo.accepted (validated E this file)
       = Some (hasValidFileType E file (accept this)
               && hasValidFileSize E file (maxFileSize this))
    /\ FileInfo.warning (validated E this file)
       = if negb (hasValidFileType E file (accept this)) then
           Some (term E "fileTypeNotAccepted")
         else if negb (hasValidFileSize E file (maxFileSize this)) then
           Some (term E "fileSizeExceeded")
         else None).
  { unfold validated.
    destruct (hasValidFileType E file (accept this));
      [destruct (hasValidFileSize E file (maxFileSize this))|]; repeat split. }
  destruct (heap_added E file this) as [info [Hheap [-> | [u [_ [_ ->]]]]]];
    eexists; eexists; (split; [reflexivity|]); (split; [exact Hheap|]); exact Hverdict.
Qed.

Lemma addFile_verdict_witness :
  exists this' info,
    addFile es_env b_txt (with_accept "image/*" new_SlFileDropzone) = Normal tt this'
    /\ heap this' = [] ++ [info]
    /\ FileInfo.file info = b_txt
    /\ FileInfo.accepted info = Some false
    /\ FileInfo.warning info = Some (term es_env "fileTypeNotAccepted").
Proof.
  apply (addFile_verdict es_env b_txt (with_accept "image/*" new_SlFileDropzone)).
  reflexivity.
Defined.

(** ** The request of an upload *)




(** ** Handlers and removal together *)

(** X11: a progress report, a transport error and an abort each write
    the one object they are called for.  [files], the dropzone's own
    [warning] and every other object stay as they were and no object is
    created; a progress report dispatches nothing, an error exactly
    [sl-error] with its event, and an abort exactly [sl-abort] with its
    event. *)
Theorem upload_handlers_frame (E : Env) (event : ProgressEvent) (fileInfo : ref)
    (this : SlFileDropzone) (info : FileInfo.t) :
  heap this !! fileInfo = Some info ->
  forall handler dispatched,
    In (handler, dispatched)
       [ (updateTransferProgress event fileInfo, []);
         (onTransferError E event fileInfo, [sl_error event]);
         (onTransferAbort E event fileInfo, [sl_abort (AbortEvent event)]) ] ->
    exists this',
      handler this = Normal tt this'
      /\ emitted this' = emitted this ++ dispatched
      /\ files this' = files this
      /\ warning this' = warning this
      /\ props this' = props this
      /\ length (heap this') = length (heap this)
      /\ forall r, r <> fileInfo -> heap this' !! r = heap this !! r.
Proof.
  intros Hinfo handler dispatched Hin.
  assert (Hstored : forall x e,
    let this' := with_emitted e (store fileInfo x this) in
    files this' = files this
    /\ warning this' = warning this
    /\ props this' = props this
    /\ length (heap this') = length (heap this)
    /\ forall r, r <> fileInfo -> heap this' !! r = heap this !! r).
  { intros x e this'. split; [reflexivity|]. split; [reflexivity|].
    split; [reflexivity|]. split.
    - unfold this'. simpl. apply length_insert.
    - intros r Hne. unfold this'. simpl. apply list_lookup_insert_ne. congruence. }
  simpl in Hin. destruct Hin as [Heq | [Heq | [Heq | []]]];
    injection Heq as <- <-.
  - rewrite (updateTransferProgress_eq event fileInfo this info Hinfo).
    destruct (lengthComputable event).
    + eexists. split; [reflexivity|]. split; [simpl; rewrite app_nil_r; reflexivity|].
      apply (Hstored _ (emitted this)).
    + exists this. rewrite app_nil_r. repeat split.
  - rewrite (onTransferError_eq E event fileInfo this info Hinfo).
    eexists. split; [reflexivity|]. split; [reflexivity|]. apply Hstored.
  - rewrite (onTransferAbort_eq E event fileInfo this info Hinfo).
    eexists. split; [reflexivity|]. split; [reflexivity|]. apply Hstored.
Qed.

Lemma upload_handlers_frame_witness :
  exists this',
    onTransferAbort es_env abort_event 0%nat uploading_a_png = Normal tt this'
    /\ emitted this' = emitted uploading_a_png ++ [sl_abort (AbortEvent abort_event)]
    /\ files this' = files uploading_a_png
    /\ warning this' = warning uploading_a_png
    /\ props this' = props uploading_a_png
    /\ length (heap this') = length (heap uploading_a_png)
    /\ forall r, r <> 0%nat -> heap this' !! r = heap uploading_a_png !! r.
Proof.
  apply (upload_handlers_frame es_env abort_event 0%nat uploading_a_png a_png_uploading).
  - reflexivity.
  - simpl. right. right. left. reflexivity.
Defined.

(** X12: removing a loading entry where the browser reports the abort
    only after [abort()] has returned.  The removal dispatches
    [sl-abort] with the object and takes the entry off the list; the
    upload's abort handler, when it then runs, dispatches a second
    [sl-abort], with the event, for an object that is no longer listed,
    and leaves it not loading, not accepted, with the transferAbort
    term and its request marked as aborted. *)
Theorem remove_then_abort_reported (E : Env) (index : Z) (event : ProgressEvent)
    (this : SlFileDropzone) (fileInfo : ref) (info : FileInfo.t) (x : Xhr.t) :
  upload_abort E = None ->
  at_index (files this) index = Some fileInfo ->
  heap this !! fileInfo = Some info ->
  truthy_bool (FileInfo.loading info) = true ->
  FileInfo.xhr info = Some x ->
  exists this' info',
    (handleFileRemove E index ;; onTransferAbort E event fileInfo) this = Normal tt this'
    /\ emitted this'
       = emitted this ++ [sl_abort (AbortFile fileInfo); sl_abort (AbortEvent event)]
    /\ files this' = delete (Z.to_nat index) (files this)
    /\ heap this' !! fileInfo = Some info'
    /\ FileInfo.loading info' = Some false
    /\ FileInfo.accepted info' = Some false
    /\ FileInfo.warning info' = Some (term E "transferAbort")
    /\ FileInfo.xhr info' = Some (Xhr.abort x).
Proof.
  intros Hquiet Hat Hinfo Hloading Hxhr.
  unfold bind.
  rewrite (handleFileRemove_eq E index this fileInfo info Hat Hinfo).
  unfold notified. rewrite Hloading, Hxhr, Hquiet.
  assert (Hstored :
    heap (with_files (delete (Z.to_nat index) (files this))
            (with_emitted
               (emitted (store fileInfo (FileInfo.on_xhr Xhr.abort info) this)
                ++ [sl_abort (AbortFile fileInfo)])
               (store fileInfo (FileInfo.on_xhr Xhr.abort info) this))) !! fileInfo
    = Some (FileInfo.on_xhr Xhr.abort info)).
  { simpl. apply list_lookup_insert_eq. eapply lookup_lt_Some. exact Hinfo. }
  rewrite (onTransferAbort_eq E event fileInfo _ _ Hstored).
  eexists. eexists. split; [reflexivity|].
  split; [simpl; rewrite <- app_assoc; reflexivity|].
  split; [reflexivity|].
  split.
  { simpl. apply list_lookup_insert_eq. rewrite length_insert.
    eapply lookup_lt_Some. exact Hinfo. }
  simpl. rewrite Hxhr. repeat split.
Qed.

Lemma remove_then_abort_reported_witness :
  exists this' info',
    (handleFileRemove es_env_quiet 0 ;; onTransferAbort es_env_quiet abort_event 0%nat)
      uploading_a_png = Normal tt this'
    /\ emitted this'
       = emitted uploading_a_png
         ++ [sl_abort (AbortFile 0%nat); sl_abort (AbortEvent abort_event)]
    /\ files this' = delete (Z.to_nat 0) (files uploading_a_png)
    /\ heap this' !! 0%nat = Some info'
    /\ FileInfo.loading info' = Some false
    /\ FileInfo.accepted info' = Some false
    /\ FileInfo.warning info' = Some (term es_env_quiet "transferAbort")
    /\ FileInfo.xhr info'
       = Some (Xhr.abort (upload_request uploading_dropzone a_png "https://example.org/upload")).
Proof.
  apply (remove_then_abort_reported es_env_quiet 0 abort_event uploading_a_png 0%nat
           a_png_uploading); reflexivity.
Defined.

(** X13: a full single-file list takes a new file once its entry is
    removed.  With [maxFiles] at 1 and one entry that is not loading,
    removing index 0 and then handing over one file dispatches
    [sl-remove] and [sl-change], clears [warning], and leaves the new
    file's object as the only entry. *)
Theorem remove_then_drop (E : Env) (file : File.t) (this : SlFileDropzone)
    (fileInfo : ref) (info : FileInfo.t) :
  maxFiles this = 1%Z ->
  files this = [fileInfo] ->
  heap this !! fileInfo = Some info ->
  truthy_bool (FileInfo.loading info) = false ->
  exists this' info',
    (handleFileRemove E 0 ;; handleFiles E (Some [file])) this = Normal tt this'
    /\ emitted this' = emitted this ++ [sl_remove fileInfo; sl_change [file]]
    /\ files this' = [length (heap this)]
    /\ heap this' = heap this ++ [info']
    /\ FileInfo.file info' = file
    /\ warning this' = None.
Proof.
  intros Hmax Hfiles Hinfo Hidle.
  assert (Hat : at_index (files this) 0 = Some fileInfo)
    by (rewrite Hfiles; reflexivity).
  unfold bind.
  rewrite (handleFileRemove_eq E 0 this fileInfo info Hat Hinfo).
  unfold notified. rewrite Hidle, Hfiles. cbn [Z.to_nat delete list_delete].
  unfold handleFiles. cbn [length Nat.eqb].
  unfold bind at 1. unfold set_warning at 1. rewrite bind_get_this.
  match goal with |- context [multiple ?s] =>
    replace (multiple s) with (maxFiles this >? 1)%Z by reflexivity end.
  rewrite Hmax. change (1 >? 1)%Z with false.
  cbn [negb andb Nat.ltb Nat.leb]. rewrite bind_emit.
  cbn [forEach]. unfold bind at 1.
  rewrite addFile_added
    by (unfold full, truthy_number;
        cbn [maxFiles files with_emitted with_warning with_files length];
        rewrite Hmax; reflexivity).
  unfold ret.
  match goal with |- context [added E file ?s] => set (s0 := s) end.
  destruct (heap_added_file E file s0) as [info' [Hheap Hfile]].
  destruct (frame_added E file s0) as [_ [Hw He]].
  pose proof (files_added E file s0) as Hf.
  replace (multiple s0) with (maxFiles this >? 1)%Z in Hf by reflexivity.
  rewrite Hmax in Hf. change (1 >? 1)%Z with false in Hf.
  exists (added E file s0), info'. split; [reflexivity|].
  split; [rewrite He; unfold s0; simpl; rewrite <- app_assoc; reflexivity|].
  repeat split; assumption.
Qed.

Lemma remove_then_drop_witness :
  exists this' info',
    (handleFileRemove es_env 0 ;; handleFiles es_env (Some [b_png])) holding_a_png
    = Normal tt this'
    /\ emitted this' = emitted holding_a_png ++ [sl_remove 0%nat; sl_change [b_png]]
    /\ files this' = [length (heap holding_a_png)]
    /\ heap this' = heap holding_a_png ++ [info']
    /\ FileInfo.file info' = b_png
    /\ warning this' = None.
Proof.
  apply (remove_then_drop es_env b_png holding_a_png 0%nat
           (FileInfo.set_accepted true (FileInfo.new a_png))); reflexivity.
Defined.

(** ** The stored progress *)

Lemma percent_in_range_inv (l t : N) :
  in_range (percent l t) -> (0 < t)%N /\ (l <= t)%N.
Proof.
  unfold percent. destruct (t =? 0)%N eqn:Hz.
  - destruct (l =? 0)%N; simpl; intros [].
  - apply N.eqb_neq in Hz. simpl. rewrite Qred_correct. intros [_ Hle].
    assert (Ht : (0 < t)%N) by lia. split; [exact Ht|].
    pose proof (inject_N_pos t Ht) as Hpos.
    assert (Hone : (inject_Z (Z.of_N l) / inject_Z (Z.of_N t) <= 1)%Q).
    { apply (Qmult_le_r _ _ 100); [reflexivity|]. exact Hle. }
    assert (Hmul : (inject_Z (Z.of_N l) / inject_Z (Z.of_N t) * inject_Z (Z.of_N t)
                    <= 1 * inject_Z (Z.of_N t))%Q).
    { apply Qmult_le_compat_r; [exact Hone | apply Qlt_le_weak; exact Hpos]. }
    assert (Hcancel : (inject_Z (Z.of_N l) / inject_Z (Z.of_N t) * inject_Z (Z.of_N t)
                       == inject_Z (Z.of_N l))%Q).
    { field. intros Hzero. rewrite Hzero in Hpos. exact (Qlt_irrefl 0 Hpos). }
    rewrite Hcancel, Qmult_1_l in Hmul. rewrite <- Zle_Qle in Hmul. lia.
Qed.

Lemma percent_complete (t : N) : (0 < t)%N -> percent t t = Finite 100.
Proof.
  intros Ht. rewrite percent_finite by exact Ht.
  pose proof (inject_N_pos t Ht) as Hpos.
  assert (Hred : Qred (inject_Z (Z.of_N t) / inject_Z (Z.of_N t) * 100) = Qred 100).
  { apply Qred_complete. field.
    intros Hzero. rewrite Hzero in Hpos. exact (Qlt_irrefl 0 Hpos). }
  rewrite Hred. reflexivity.
Qed.

(** X14: the value a computable progress report stores.  It is within 0
    and 100 exactly when [total] is positive and [loaded] is at most
    [total]; it is 100 for a report with [loaded] equal to a positive
    [total]; and for a [total] of 0 it is no finite number at all:
    [NaN] when [loaded] is 0 too, [Infinity] otherwise. *)
Theorem updateTransferProgress_stored_value (event : ProgressEvent) (fileInfo : ref)
    (this : SlFileDropzone) (info : FileInfo.t) :
  heap this !! fileInfo = Some info ->
  lengthComputable event = true ->
  exists n,
    field_after FileInfo.progress fileInfo (updateTransferProgress event fileInfo this)
    = Some (Some n)
    /\ (in_range n <-> (0 < total event)%N /\ (loaded event <= total event)%N)
    /\ ((0 < total event)%N -> loaded event = total event -> n = Finite 100)
    /\ (total event = 0%N ->
        n = if (loaded event =? 0)%N then NaN else Infinity).
Proof.
  intros Hinfo Hcomputable.
  exists (percent (loaded event) (total event)).
  rewrite (updateTransferProgress_eq event fileInfo this info Hinfo), Hcomputable.
  split.
  { unfold field_after. simpl.
    rewrite list_lookup_insert_eq by (eapply lookup_lt_Some; exact Hinfo). reflexivity. }
  split.
  { split.
    - apply percent_in_range_inv.
    - intros [Ht Hle]. apply percent_in_range; assumption. }
  split.
  - intros Ht ->. apply percent_complete. exact Ht.
  - intros ->. reflexivity.
Qed.

Lemma updateTransferProgress_stored_value_witness :
  exists n,
    field_after FileInfo.progress 0%nat
      (updateTransferProgress {| lengthComputable := true; loaded := 7; total := 7 |}
         0%nat uploading_a_png)
    = Some (Some n)
    /\ (in_range n <-> (0 < 7)%N /\ (7 <= 7)%N)
    /\ ((0 < 7)%N -> 7%N = 7%N -> n = Finite 100)
    /\ (7%N = 0%N -> n = if (7 =? 0)%N then NaN else Infinity).
Proof.
  apply (updateTransferProgress_stored_value
           {| lengthComputable := true; loaded := 7; total := 7 |}
           0%nat uploading_a_png a_png_uploading); reflexivity.
Defined.

(** ** What the page shows *)



(** Every term the dropzone looks up is the empty string in both
    translations. *)
Example dropzone_terms_empty :
  Forall (fun key =>
    lookup_term es_translation key = "" /\ lookup_term fa_translation key = "")
    dropzone_terms.
Proof. repeat constructor. Qed.

(** X16: the list item of an object after its upload has failed.
    After a completion with a status other than 200, a transport error
    or an abort, the item shows no size, has the warning attribute, is
    closable whatever [closable] says, is not loading, keeps the
    progress stored last, and its text is the term of the failure in
    place of the file's name; the icon is the warning triangle unless
    that term is the empty string. *)
Theorem file_item_after_failure (E : Env) (closable : bool) (event : ProgressEvent)
    (httpRequest : XhrResult) (fileInfo : ref) (this : SlFileDropzone)
    (info : FileInfo.t) :
  heap this !! fileInfo = Some info ->
  status httpRequest <> 200%Z ->
  forall handler key,
    In (handler, key)
       [ (onTransferComplete E event httpRequest fileInfo, "serverError");
         (onTransferError E event fileInfo, "transferError");
         (onTransferAbort E event fileInfo, "transferAbort") ] ->
    field_after (file_item closable) fileInfo (handler this)
    = Some {| item_size := None;
              item_warning := true;
              item_closable := true;
              item_loading := false;
              item_progress := FileInfo.progress info;
              item_text := Some (term E key);
              item_icon := if (term E key =? "")%string then "file-earmark"
                           else "exclamation-triangle" |}.
Proof.
  intros Hinfo Hstatus handler key Hin.
  simpl in Hin. destruct Hin as [Heq | [Heq | [Heq | []]]];
    injection Heq as <- <-.
  - rewrite (onTransferComplete_eq E event httpRequest fileInfo this info Hinfo).
    destruct (status httpRequest =? 200)%Z eqn:H200;
      [apply Z.eqb_eq in H200; contradiction|].
    erewrite field_after_stored by exact Hinfo.
    unfold file_item. simpl. destruct (term E "serverError" =? "")%string; reflexivity.
  - rewrite (onTransferError_eq E event fileInfo this info Hinfo).
    erewrite field_after_stored by exact Hinfo.
    unfold file_item. simpl. destruct (term E "transferError" =? "")%string; reflexivity.
  - rewrite (onTransferAbort_eq E event fileInfo this info Hinfo).
    erewrite field_after_stored by exact Hinfo.
    unfold file_item. simpl. destruct (term E "transferAbort" =? "")%string; reflexivity.
Qed.

Lemma file_item_after_failure_witness :
  field_after (file_item false) 0%nat
    (onTransferError es_env abort_event 0%nat uploading_a_png)
  = Some {| item_size := None;
            item_warning := true;
            item_closable := true;
            item_loading := false;
            item_progress := Some (Finite 0);
            item_text := Some "";
            item_icon := "file-earmark" |}.
Proof.
  apply (file_item_after_failure es_env false abort_event
           {| status := 500; response := "" |} 0%nat uploading_a_png a_png_uploading
           eq_refl ltac:(discriminate)
           (onTransferError es_env abort_event 0%nat) "transferError").
  simpl. right. left. reflexivity.
Defined.

(** X17: [disabled] and [noDrag] stop a drop and nothing else.  With
    either set, [onDrop] leaves the component as it was; files the file
    input reports are handled all the same: [handleFileInputChange]
    dispatches [sl-select] first, whatever the files, and then
    [sl-change] as [handleFiles] does. *)
Theorem disabled_stops_drop_only (E : Env) (dropped : option FileList)
    (fileList : FileList) (this : SlFileDropzone) :
  disabled this || noDrag this = true ->
  onDrop E dropped this = Normal tt this
  /\ exists this',
       handleFileInputChange E (Some fileList) this = Normal tt this'
       /\ emitted this'
          = emitted this ++ sl_select
              :: (if negb (length fileList =? 0)%nat
                     && (multiple this || (length fileList <=? 1)%nat)
                  then [sl_change fileList] else []).
Proof.
  intros Hoff. split.
  - unfold onDrop. rewrite bind_get_this. rewrite Hoff.
    destruct dropped; reflexivity.
  - unfold handleFileInputChange. rewrite bind_emit.
    destruct (handleFiles_emitted E fileList
                (with_emitted (emitted this ++ [sl_select]) this)) as [this' [Hrun Hem]].
    exists this'. split; [exact Hrun|].
    rewrite Hem. cbn [emitted with_emitted]. rewrite <- app_assoc. reflexivity.
Qed.

Lemma disabled_stops_drop_only_witness :
  let off :=
    {| warning := None; files := []; disabled := true; noDrag := false;
       accept := "*"; maxFileSize := None; maxFiles := 1; url := None;
       method := POST; headers := None; withCredentials := false; binaryBody := false;
       heap := []; emitted := [] |} in
  onDrop es_env (Some [a_png]) off = Normal tt off
  /\ exists this',
       handleFileInputChange es_env (Some [a_png]) off = Normal tt this'
       /\ emitted this' = [] ++ [sl_select; sl_change [a_png]].
Proof.
  intros off.
  apply (disabled_stops_drop_only es_env (Some [a_png]) [a_png] off). reflexivity.
Defined.

(** ** What holds of every object *)

(** A property of objects that the writes of the methods keep is kept,
    for every object of the store, by every method. *)
Lemma react_keeps_each_object (E : Env) (Q : FileInfo.t -> Prop) :
  (forall this file, Q (validated E this file)) ->
  (forall this u info, Q info -> Q (uploading this u info)) ->
  (forall info p, Q info -> Q (FileInfo.set_progress p info)) ->
  (forall info, Q info -> Q (FileInfo.set_loading false info)) ->
  (forall info w, Q info ->
     Q (FileInfo.set_accepted false
          (FileInfo.set_warning w (FileInfo.set_loading false info)))) ->
  (forall info, Q info -> Q (FileInfo.on_xhr Xhr.abort info)) ->
  forall input this,
    well_formed this ->
    expected input this ->
    Forall Q (heap this) ->
    exists this',
      state_after (react E input this) = Some this' /\ Forall Q (heap this').
Proof.
  intros Hvalidated Huploading Hprogress Hloading Hfailed Haborted
         input this Hwf Hexp HQ.
  assert (Hintake : forall fileList s,
    Forall Q (heap s) ->
    exists this', handleFiles E fileList s = Normal tt this' /\ Forall Q (heap this')).
  { intros fileList s Hs.
    apply (handleFiles_keeps E (fun s => Forall Q (heap s))).
    - intros s0 w H0. exact H0.
    - intros s0 e H0. exact H0.
    - intros s0 file H0 _.
      destruct (heap_added E file s0) as [info [Hheap [-> | [u [_ [_ ->]]]]]];
        rewrite Hheap; apply Forall_app; (split; [exact H0|]);
        constructor; try constructor.
      + apply Hvalidated.
      + apply Huploading, Hvalidated.
    - exact Hs. }
  assert (Hstored : forall r info x,
    heap this !! r = Some info -> Q x -> Forall Q (<[r := x]> (heap this))).
  { intros r info x Hr Hx. apply Forall_insert; assumption. }
  assert (Hobject : forall r info, heap this !! r = Some info -> Q info).
  { intros r info Hr. rewrite Forall_lookup in HQ. exact (HQ r info Hr). }
  destruct input as [dropped | inputFiles | index | event fileInfo
                    | event httpRequest fileInfo | event fileInfo | event fileInfo];
    simpl in Hexp; simpl.
  - unfold onDrop. rewrite bind_get_this.
    destruct dropped as [fileList|]; [destruct (disabled this || noDrag this)|].
    + exists this. split; [reflexivity | exact HQ].
    + destruct (Hintake (Some fileList) this HQ) as [this' [Hrun HQ']].
      exists this'. rewrite Hrun. split; [reflexivity | exact HQ'].
    + exists this. split; [reflexivity | exact HQ].
  - unfold handleFileInputChange. rewrite bind_emit.
    destruct (Hintake inputFiles (with_emitted (emitted this ++ [sl_select]) this) HQ)
      as [this' [Hrun HQ']].
    exists this'. rewrite Hrun. split; [reflexivity | exact HQ'].
  - destruct (at_index (files this) index) as [fileInfo|] eqn:Hat.
    + destruct (at_index_Some _ _ _ Hat) as [_ Hentry].
      assert (Hlt : (fileInfo < length (heap this))%nat).
      { unfold well_formed in Hwf. rewrite Forall_lookup in Hwf.
        exact (Hwf _ _ Hentry). }
      destruct (lookup_lt_is_Some_2 _ _ Hlt) as [info Hinfo].
      rewrite (handleFileRemove_eq E index this fileInfo info Hat Hinfo).
      eexists. split; [reflexivity|]. cbn [with_files heap].
      pose proof (Hobject _ _ Hinfo) as Hi.
      unfold notified.
      destruct (truthy_bool (FileInfo.loading info));
        [destruct (FileInfo.xhr info) as [x|]; [destruct (upload_abort E) as [event|]|]|];
        cbn [with_emitted heap store with_heap]; try exact HQ.
      * apply (Hstored _ _ _ Hinfo). apply Hfailed, Haborted, Hi.
      * apply (Hstored _ _ _ Hinfo). apply Haborted, Hi.
    + exists this. unfold handleFileRemove. rewrite bind_get_this, Hat.
      split; [reflexivity | exact HQ].
  - destruct (lookup_lt_is_Some_2 _ _ Hexp) as [info Hinfo].
    rewrite (updateTransferProgress_eq event fileInfo this info Hinfo).
    destruct (lengthComputable event).
    + eexists. split; [reflexivity|]. cbn [heap store with_heap].
      apply (Hstored _ _ _ Hinfo). apply Hprogress. exact (Hobject _ _ Hinfo).
    + exists this. split; [reflexivity | exact HQ].
  - destruct (lookup_lt_is_Some_2 _ _ Hexp) as [info Hinfo].
    rewrite (onTransferComplete_eq E event httpRequest fileInfo this info Hinfo).
    destruct (status httpRequest =? 200)%Z;
      eexists; (split; [reflexivity|]); cbn [with_emitted heap store with_heap];
      apply (Hstored _ _ _ Hinfo).
    + apply Hloading. exact (Hobject _ _ Hinfo).
    + apply Hfailed. exact (Hobject _ _ Hinfo).
  - destruct (lookup_lt_is_Some_2 _ _ Hexp) as [info Hinfo].
    rewrite (onTransferError_eq E event fileInfo this info Hinfo).
    eexists. split; [reflexivity|]. cbn [with_emitted heap store with_heap].
    apply (Hstored _ _ _ Hinfo). apply Hfailed. exact (Hobject _ _ Hinfo).
  - destruct (lookup_lt_is_Some_2 _ _ Hexp) as [info Hinfo].
    rewrite (onTransferAbort_eq E event fileInfo this info Hinfo).
    eexists. split; [reflexivity|]. cbn [with_emitted heap store with_heap].
    apply (Hstored _ _ _ Hinfo). apply Hfailed. exact (Hobject _ _ Hinfo).
Qed.

Lemma consistent_step (E : Env) (input : Input) (this : SlFileDropzone) :
  well_formed this ->
  expected input this ->
  Forall consistent (heap this) ->
  exists this',
    state_after (react E input this) = Some this'
    /\ Forall consistent (heap this').
Proof.
  apply (react_keeps_each_object E consistent); unfold consistent.
  - intros s file. unfold validated.
    destruct (negb (hasValidFileType E file (accept s)));
      [| destruct (negb (hasValidFileSize E file (maxFileSize s)))]; simpl;
      (split; [discriminate|]); (split; [|discriminate]);
      split; congruence.
  - intros s u info [Hv [Hw _]]. simpl. split; [exact Hv|]. split; [exact Hw|].
    discriminate.
  - intros info p H. exact H.
  - intros info [Hv [Hw _]]. simpl. split; [exact Hv|]. split; [exact Hw|].
    discriminate.
  - intros info w _. simpl. split; [discriminate|]. split; [|discriminate].
    split; congruence.
  - intros info [Hv [Hw Hx]]. simpl. split; [exact Hv|]. split; [exact Hw|].
    intros Hl. specialize (Hx Hl). destruct (FileInfo.xhr info); [discriminate|congruence].
Qed.

(** X18: three facts about every object that every method keeps, and
    that hold of a new dropzone, whose store is empty: the object has a
    verdict; it has no warning exactly when its verdict is accepted;
    and if it is loading it has its request, so that the [abort()] of a
    removal always finds one. *)
Theorem react_keeps_object_invariant (E : Env) (input : Input) (this : SlFileDropzone) :
  well_formed this ->
  expected input this ->
  Forall consistent (heap this) ->
  exists this',
    state_after (react E input this) = Some this'
    /\ Forall consistent (heap this').
Proof. apply consistent_step. Qed.

Lemma react_keeps_object_invariant_witness :
  Forall consistent (heap new_SlFileDropzone)
  /\ exists this',
       state_after (react es_env (ItemHidden 0) uploading_a_png) = Some this'
       /\ Forall consistent (heap this').
Proof.
  split; [constructor|].
  apply (react_keeps_object_invariant es_env (ItemHidden 0) uploading_a_png).
  - exact well_formed_uploading_a_png.
  - exact I.
  - unfold consistent. vm_compute. repeat constructor; discriminate.
Defined.


